(** * Data-analysis agent: query orchestration, parameter extraction, ingestion

    A shallow embedding of the Python sources

      - [src/agent_orchestrator/agent.py]     (DataAnalysisAgent)
      - [src/llm_handler/data_analysis.py]    (DataAnalysisEngine)
      - [src/visualization/visualization.py]  (VisualizationEngine)
      - [src/file_processing/process_file.py] (FileProcessor)

    Python [str] values are modelled as [string] (one [ascii] per code point,
    code points below 256); Python exceptions as values of [PyExc]; the
    language model, [json.loads], pandas and seaborn are collaborators held
    in a record [Env].  Functions that can raise return [Res A]. *)

From Stdlib Require Import ZArith Ascii String List Lia Bool.
From Stdlib Require Import Floats.SpecFloat.
From Stdlib Require Import Numbers.DecimalString.
From stdpp Require Import base gmap strings list fin_maps.

Local Open Scope Z_scope.

#[local] Arguments String.append : simpl nomatch.

(* ===================================================================== *)
(** ** Python string operations *)
(* ===================================================================== *)

Module PyStr.

(** Code point 34, the double quote. *)
Definition dquote : ascii := ascii_of_nat 34.
(** Code point 39, the apostrophe. *)
Definition squote : ascii := ascii_of_nat 39.
(** Code point 46, the period. *)
Definition period : ascii := ascii_of_nat 46.

(** [len(s)] *)
Definition len (s : string) : Z := Z.of_nat (String.length s).

(** Cased upper-case code points below 256: A-Z, and U+00C0..U+00DE
    without the multiplication sign U+00D7. *)
Definition is_upper (c : ascii) : bool :=
  let n := nat_of_ascii c in
  ((65 <=? n)%nat && (n <=? 90)%nat)
  || ((192 <=? n)%nat && (n <=? 222)%nat && negb (n =? 215)%nat).

Definition lower_char (c : ascii) : ascii :=
  if is_upper c then ascii_of_nat (nat_of_ascii c + 32) else c.

(** [s.lower()] on code points below 256, where every character has a
    one-character lowercase form: positions in [s.lower()] are positions
    in [s]. Strings with other characters are outside this model. *)
Fixpoint lower (s : string) : string :=
  match s with
  | EmptyString => EmptyString
  | String c s' => String (lower_char c) (lower s')
  end.

(** [s.startswith(p)] *)
Fixpoint startswith (s p : string) {struct p} : bool :=
  match p with
  | EmptyString => true
  | String a p' =>
      match s with
      | EmptyString => false
      | String b s' => Ascii.eqb a b && startswith s' p'
      end
  end.

(** [sub in s] *)
Fixpoint contains (sub s : string) : bool :=
  startswith s sub
  || match s with
     | EmptyString => false
     | String _ s' => contains sub s'
     end.

(** Lowest index of an occurrence of [sub] in [s], counted from [i];
    [-1] when there is none. *)
Fixpoint find_at (sub s : string) (i : Z) : Z :=
  if startswith s sub then i
  else match s with
       | EmptyString => -1
       | String _ s' => find_at sub s' (i + 1)
       end.

(** [s[n:]] for a natural [n] *)
Fixpoint drop (n : nat) (s : string) : string :=
  match n, s with
  | O, _ => s
  | S _, EmptyString => EmptyString
  | S n', String _ s' => drop n' s'
  end.

(** [s[:n]] for a natural [n] *)
Fixpoint take (n : nat) (s : string) : string :=
  match n, s with
  | O, _ => EmptyString
  | S _, EmptyString => EmptyString
  | S n', String c s' => String c (take n' s')
  end.

(** Slice bounds: a negative index counts from the end, and both ends are
    clamped to [0 .. len s]. *)
Definition clamp (s : string) (i : Z) : Z :=
  if i <? 0 then Z.max 0 (i + len s) else Z.min i (len s).

(** [s[i:j]] *)
Definition slice (s : string) (i j : Z) : string :=
  let a := clamp s i in
  let b := clamp s j in
  take (Z.to_nat (b - a)) (drop (Z.to_nat a) s).

(** [s[i:]] *)
Definition slice_from (s : string) (i : Z) : string := slice s i (len s).

(** [s[:j]] *)
Definition slice_to (s : string) (j : Z) : string := slice s 0 j.

(** [s.find(sub)] *)
Definition find (sub s : string) : Z := find_at sub s 0.

(** [s.find(sub, start)]: the search starts at the clamped [start]; a
    start beyond the end finds nothing. *)
Definition find_from (sub s : string) (start : Z) : Z :=
  let a := if start <? 0 then Z.max 0 (start + len s) else start in
  if len s <? a then -1
  else find_at sub (drop (Z.to_nat a) s) a.

(** [s.endswith(p)] *)
Definition endswith (s p : string) : bool :=
  (String.length p <=? String.length s)%nat
  && String.eqb (drop (String.length s - String.length p) s) p.

(** [s.lstrip(chars)] *)
Fixpoint lstrip (p : ascii -> bool) (s : string) : string :=
  match s with
  | EmptyString => EmptyString
  | String c s' => if p c then lstrip p s' else s
  end.

(** [s.rstrip(chars)] *)
Fixpoint rstrip (p : ascii -> bool) (s : string) : string :=
  match s with
  | EmptyString => EmptyString
  | String c s' =>
      match rstrip p s' with
      | EmptyString => if p c then EmptyString else String c EmptyString
      | r => String c r
      end
  end.

(** [s.strip(chars)] *)
Definition strip_chars (p : ascii -> bool) (s : string) : string :=
  rstrip p (lstrip p s).

(** [c.isspace()] for code points below 256. *)
Definition is_space (c : ascii) : bool :=
  let n := nat_of_ascii c in
  ((9 <=? n)%nat && (n <=? 13)%nat)
  || ((28 <=? n)%nat && (n <=? 32)%nat)
  || (n =? 133)%nat || (n =? 160)%nat.

(** [s.strip()] *)
Definition strip (s : string) : string := strip_chars is_space s.

(** The argument of [strip] in the title rule: space, double quote and
    apostrophe. *)
Definition is_quote_or_space (c : ascii) : bool :=
  Ascii.eqb c " "%char || Ascii.eqb c dquote || Ascii.eqb c squote.

(** [sep.join(l)] *)
Fixpoint join (sep : string) (l : list string) : string :=
  match l with
  | [] => EmptyString
  | [x] => x
  | x :: rest => x +:+ sep +:+ join sep rest
  end.

(** [str(n)] for a non-negative integer. *)
Definition of_nat (n : nat) : string := NilZero.string_of_uint (Nat.to_uint n).

End PyStr.

(* ===================================================================== *)
(** ** Python values, exceptions and dictionaries *)
(* ===================================================================== *)

(** Exceptions (subclasses of [Exception]). [OtherError] is whatever a
    collaborator raises. *)
Inductive PyExc : Type :=
| ValueError (msg : string)
| KeyError (key : string)
| AttributeError (msg : string)
| TypeError (msg : string)
| OtherError (name msg : string).

(** The result of a call: a value, or a raised exception. *)
Inductive Res (A : Type) : Type :=
| Ok (a : A)
| Raise (e : PyExc).
Arguments Ok {A} a.
Arguments Raise {A} e.

(** The values [json.loads] produces: [None], [bool], [int], [float],
    [str], [list] and [dict] (keys in insertion order). *)
#[warnings="-register-all"] Inductive json : Type :=
| JNull
| JBool (b : bool)
| JInt (z : Z)
| JFloat (f : spec_float)
| JStr (s : string)
| JArr (l : list json)
| JObj (d : list (string * json)).

(** A Python [dict] with string keys, in insertion order. *)
Definition pydict (V : Type) : Type := list (string * V).

Fixpoint dict_lookup {V : Type} (k : string) (d : pydict V) : option V :=
  match d with
  | [] => None
  | (k', v) :: d' => if String.eqb k' k then Some v else dict_lookup k d'
  end.

(** [d[k] = v]: an existing key keeps its position, a new one goes last. *)
Fixpoint dict_set {V : Type} (k : string) (v : V) (d : pydict V) : pydict V :=
  match d with
  | [] => [(k, v)]
  | (k', v') :: d' =>
      if String.eqb k' k then (k', v) :: d' else (k', v') :: dict_set k v d'
  end.

(** [d.get(k, default)] *)
Definition dict_get {V : Type} (k : string) (default : V) (d : pydict V) : V :=
  match dict_lookup k d with
  | Some x => x
  | None => default
  end.

(** [list(d.keys())] *)
Definition dict_keys {V : Type} (d : pydict V) : list string := map fst d.

(** [type(v).__name__] *)
Definition type_name (v : json) : string :=
  match v with
  | JNull => "NoneType"
  | JBool _ => "bool"
  | JInt _ => "int"
  | JFloat _ => "float"
  | JStr _ => "str"
  | JArr _ => "list"
  | JObj _ => "dict"
  end.

(** [bool(v)] *)
Definition truthy (v : json) : bool :=
  match v with
  | JNull => false
  | JBool b => b
  | JInt z => negb (z =? 0)
  | JFloat (S754_zero _) => false
  | JFloat _ => true
  | JStr s => negb (String.eqb s EmptyString)
  | JArr l => match l with [] => false | _ => true end
  | JObj d => match d with [] => false | _ => true end
  end.

(** [v == s] for a string literal [s] *)
Definition is_str (v : json) (s : string) : bool :=
  match v with
  | JStr t => String.eqb t s
  | _ => false
  end.

(** [v.get(key, default)]: only a [dict] has the method. *)
Definition py_get (v : json) (key : string) (default : json) : Res json :=
  match v with
  | JObj d => Ok (dict_get key default d)
  | _ => Raise (AttributeError
                  ("'" +:+ type_name v +:+ "' object has no attribute 'get'"))
  end.

(** [v[key]] on the value [_parse_visualization_request] returned. *)
Definition py_getitem (v : json) (key : string) : Res json :=
  match v with
  | JObj d => match dict_lookup key d with
              | Some x => Ok x
              | None => Raise (KeyError key)
              end
  | _ => Raise (TypeError
                  ("'" +:+ type_name v +:+ "' object is not subscriptable"))
  end.

(** [str(v)] as an f-string formats it. The text of numbers and containers
    is left to [repr]. *)
Definition py_str (repr : json -> string) (v : json) : string :=
  match v with
  | JStr s => s
  | JNull => "None"
  | JBool true => "True"
  | JBool false => "False"
  | _ => repr v
  end.

(* ===================================================================== *)
(** ** Data model *)
(* ===================================================================== *)

(** A pandas [DataFrame]: named, typed columns and rows of cells. *)
Record DataFrame : Type := mkDataFrame {
  df_columns : list (string * string);
  df_rows : list (list json)
}.

(** The ['metadata'] entry the file processor builds for a frame. *)
Record Metadata : Type := mkMetadata {
  rows : nat;
  columns : nat;
  dtypes : pydict string;
  summary : string
}.

Record Table : Type := mkTable {
  data : DataFrame;
  metadata : Metadata
}.

(** What [FileProcessor.process_file] returns: [{'data', 'metadata'}] for a
    single table, [{'sheets', 'sheet_names'}] for a workbook. *)
Inductive Processed : Type :=
| Single (t : Table)
| Workbook (sheets : pydict Table) (sheet_names : list string).

Inductive Role : Type := user | assistant.

Record Turn : Type := mkTurn {
  role : Role;
  content : string
}.

(** The prompts sent to the model, by their variable parts. *)
Inductive Prompt : Type :=
| VizPrompt (query : string) (available : list string)
| AnalysisPrompt (context_text : string) (query : string).

(** The seaborn calls of [_seaborn_viz], with their arguments. [Histplot]
    stands for the column lookup [df[x_column].dropna()] followed by the
    call of [histplot] on it: a failure of the lookup is a failure of this
    call. *)
Inductive PlotCall : Type :=
| Barplot (df : DataFrame) (x y : json) (hue : option json)
| Lineplot (df : DataFrame) (x y : json) (hue : option json)
| Scatterplot (df : DataFrame) (x y : json) (hue : option json)
| Histplot (df : DataFrame) (x : json)
| Boxplot (df : DataFrame) (x y : json)
| HeatmapPivot (df : DataFrame) (index cols values : json)
| HeatmapCorr (df : DataFrame)
| Pieplot (df : DataFrame) (x : json).

(** The pandas readers the file processor calls. *)
Inductive ParseCall : Type :=
| ReadCsv (path : string)
| ReadTsv (path : string)
| ReadJson (path : string)
| OpenExcel (path : string)
| ReadExcel (path sheet : string).

(** Calls to collaborators, in the order they are made. *)
Inductive Event : Type :=
| EvLlm (p : Prompt)
| EvPlot (c : PlotCall)
| EvParse (c : ParseCall).

(** The collaborators: the language model, [json.loads], [repr], pandas
    and seaborn/matplotlib. *)
Record Env : Type := mkEnv {
  llm_invoke : Prompt -> Res string;
  json_loads : string -> Res json;
  py_repr : json -> string;
  pd_read : ParseCall -> Res DataFrame;
  pd_sheet_names : string -> Res (list string);
  pd_summary : DataFrame -> string;
  sns_plot : PlotCall -> Res unit;
  savefig_base64 : PlotCall -> json -> string
}.

(** The dictionary [_seaborn_viz] returns. *)
Record VizResult : Type := mkVizResult {
  figure : string;
  format : string;
  title : json;
  viz_type : json;
  engine : string
}.

(** The dictionary [ask] returns. *)
Inductive Response : Type :=
| TextResponse (message : string)
| VisualizationResponse (viz : VizResult) (message : string).

Definition message_of (r : Response) : string :=
  match r with
  | TextResponse m => m
  | VisualizationResponse _ m => m
  end.

(** [DataAnalysisEngine]: [context] and [data_frames]. *)
Record DataAnalysisEngine : Type := mkEngine {
  context : pydict Processed;
  data_frames : gmap string DataFrame
}.

(** [DataAnalysisAgent]: the history, the [files] dictionary the caller
    fills, and the engine. *)
Record DataAnalysisAgent : Type := mkAgent {
  conversation_history : list Turn;
  files : pydict Processed;
  data_analysis_engine : DataAnalysisEngine
}.

(* ===================================================================== *)
(** ** Computations that call collaborators and may raise *)
(* ===================================================================== *)

Definition M (A : Type) : Type := (Res A * list Event)%type.

Definition ret {A : Type} (a : A) : M A := (Ok a, []).

Definition raise {A : Type} (e : PyExc) : M A := (Raise e, []).

Definition bind {A B : Type} (m : M A) (f : A -> M B) : M B :=
  match m with
  | (Raise e, t) => (Raise e, t)
  | (Ok a, t) => let (r, t') := f a in (r, t ++ t')
  end.

Definition lift {A : Type} (r : Res A) : M A := (r, []).

(** A call to a collaborator: logged, then its result. *)
Definition call {A : Type} (ev : Event) (r : Res A) : M A := (r, [ev]).

Notation "'do' x <- m ; k" := (bind m (fun x => k))
  (at level 10, x name, m at level 100, k at level 200).

(** The state after a method call, its result and the calls it made. *)
Record Run (A : Type) : Type := mkRun {
  outcome : Res A;
  final : DataAnalysisAgent;
  trace : list Event
}.
Arguments mkRun {A} outcome final trace.
Arguments outcome {A} r.
Arguments final {A} r.
Arguments trace {A} r.

(* ===================================================================== *)
(** ** [FileProcessor] (file_processing/process_file.py) *)
(* ===================================================================== *)

Module FileProcessor.
Import PyStr.

Definition supported_extensions : list string :=
  [".csv"; ".xlsx"; ".xls"; ".txt"; ".doc"; ".docx"; ".pdf"; ".json"].

(** [s.rfind(c)], counted from [i]. *)
Fixpoint rfind_char (c : ascii) (s : string) (i : Z) : Z :=
  match s with
  | EmptyString => -1
  | String a s' =>
      let r := rfind_char c s' (i + 1) in
      if 0 <=? r then r else if Ascii.eqb a c then i else -1
  end.

Fixpoint all_dots (s : string) : bool :=
  match s with
  | EmptyString => true
  | String a s' => Ascii.eqb a period && all_dots s'
  end.

(** [os.path.splitext] of posixpath: the extension starts at the last dot
    of the last path component, unless only dots precede it there. *)
Definition splitext (p : string) : string * string :=
  let sepIndex := rfind_char "/"%char p 0 in
  let dotIndex := rfind_char period p 0 in
  if (sepIndex <? dotIndex) && negb (all_dots (slice p (sepIndex + 1) dotIndex))
  then (slice_to p dotIndex, slice_from p dotIndex)
  else (p, EmptyString).

(** [os.path.basename] of posixpath. *)
Definition basename (p : string) : string :=
  slice_from p (rfind_char "/"%char p 0 + 1).

(** [{'data': df, 'metadata': {...}}] *)
Definition table_of (E : Env) (df : DataFrame) : Table :=
  {| data := df;
     metadata :=
       {| rows := length (df_rows df);
          columns := length (df_columns df);
          dtypes := foldl (fun d ct => dict_set (fst ct) (snd ct) d) [] (df_columns df);
          summary := pd_summary E df |} |}.

Definition read_table (E : Env) (c : ParseCall) : M Processed :=
  do df <- call (EvParse c) (pd_read E c);
  ret (Single (table_of E df)).

Definition _process_csv (E : Env) (file_path : string) : M Processed :=
  read_table E (ReadCsv file_path).

Definition _process_txt (E : Env) (file_path : string) : M Processed :=
  read_table E (ReadTsv file_path).

Definition _process_json (E : Env) (file_path : string) : M Processed :=
  read_table E (ReadJson file_path).

(** The loop over [excel_file.sheet_names], filling [sheets]. *)
Fixpoint read_sheets (E : Env) (file_path : string) (names : list string)
    (sheets : pydict Table) : M (pydict Table) :=
  match names with
  | [] => ret sheets
  | sheet_name :: rest =>
      do df <- call (EvParse (ReadExcel file_path sheet_name))
                    (pd_read E (ReadExcel file_path sheet_name));
      read_sheets E file_path rest (dict_set sheet_name (table_of E df) sheets)
  end.

Definition _process_excel (E : Env) (file_path : string) : M Processed :=
  do names <- call (EvParse (OpenExcel file_path)) (pd_sheet_names E file_path);
  do sheets <- read_sheets E file_path names [];
  ret (Workbook sheets names).

Definition unsupported (extension : string) : PyExc :=
  ValueError ("Unsupported file extension: " +:+ extension).

(** The class defines no [_process_doc] and no [_process_pdf]: looking the
    method up raises. *)
Definition no_method (name : string) : PyExc :=
  AttributeError ("'FileProcessor' object has no attribute '" +:+ name +:+ "'").

Definition process_file (E : Env) (file_path : string) : M Processed :=
  let extension := snd (splitext file_path) in
  if negb (existsb (String.eqb extension) supported_extensions)
  then raise (unsupported extension)
  else if String.eqb extension ".csv" then _process_csv E file_path
  else if String.eqb extension ".xlsx" || String.eqb extension ".xls"
  then _process_excel E file_path
  else if String.eqb extension ".txt" then _process_txt E file_path
  else if String.eqb extension ".doc" || String.eqb extension ".docx"
  then raise (no_method "_process_doc")
  else if String.eqb extension ".pdf" then raise (no_method "_process_pdf")
  else if String.eqb extension ".json" then _process_json E file_path
  else raise (unsupported extension).

End FileProcessor.

(* ===================================================================== *)
(** ** [DataAnalysisEngine] (llm_handler/data_analysis.py) *)
(* ===================================================================== *)

Module Engine.
Import PyStr.

(** The key of a sheet's frame: [f"{file_id}_{sheet_name}"]. *)
Definition sheet_key (file_id sheet_name : string) : string :=
  file_id +:+ "_" +:+ sheet_name.

Definition add_data (processed_file_data : Processed) (file_id : string)
    (self : DataAnalysisEngine) : DataAnalysisEngine :=
  let context' := dict_set file_id processed_file_data (context self) in
  match processed_file_data with
  | Single t =>
      {| context := context';
         data_frames := <[file_id := data t]> (data_frames self) |}
  | Workbook sheets _ =>
      {| context := context';
         data_frames :=
           foldl (fun dfs st => <[sheet_key file_id (fst st) := data (snd st)]> dfs)
                 (data_frames self) sheets |}
  end.

Definition newline : string := String (ascii_of_nat 10) EmptyString.

(** The five lines and the rule that describe one table. *)
Definition describe_table (head : string) (t : Table) : list string :=
  let md := metadata t in
  let cols := dict_keys (dtypes md) in
  [ head;
    "Shape: " +:+ of_nat (rows md) +:+ "x" +:+ of_nat (columns md);
    "Columns: " +:+ join ", " cols;
    "Data types: " +:+
      join ", " (map (fun col =>
                        col +:+ ": " +:+
                        match dict_lookup col (dtypes md) with
                        | Some ty => ty
                        | None => EmptyString
                        end) cols);
    "Summary: " +:+ summary md;
    "----------------------------------------" ].

Definition context_parts (self : DataAnalysisEngine) (file_id : string)
    : list string :=
  match dict_lookup file_id (context self) with
  | None => []
  | Some (Single t) => describe_table ("File: " +:+ file_id) t
  | Some (Workbook sheets _) =>
      flat_map (fun st => describe_table ("Sheet: " +:+ fst st) (snd st)) sheets
  end.

Definition _prepare_context (file_ids : list string)
    (self : DataAnalysisEngine) : string :=
  join newline (flat_map (context_parts self) file_ids).

Definition analyze_data (E : Env) (file_ids : list string) (query : string)
    (self : DataAnalysisEngine) : M string :=
  let file_ids :=
    match file_ids with [] => dict_keys (context self) | _ => file_ids end in
  let prompt := AnalysisPrompt (_prepare_context file_ids self) query in
  call (EvLlm prompt) (llm_invoke E prompt).

End Engine.

(* ===================================================================== *)
(** ** [VisualizationEngine] (visualization/visualization.py) *)
(* ===================================================================== *)

Module Viz.

Definition hue_of (category_column : json) : option json :=
  if truthy category_column then Some category_column else None.

Definition unsupported_type (E : Env) (viz_type : json) : PyExc :=
  ValueError ("Unsupported visualization type: " +:+ py_str (py_repr E) viz_type).

(** The [if]/[elif] chain of [_seaborn_viz]: the seaborn call a chart type
    selects, or the [ValueError] of the final [else]. *)
Definition select_plot (E : Env) (df : DataFrame)
    (viz_type x_column y_column category_column : json) : Res PlotCall :=
  if is_str viz_type "bar"
  then Ok (Barplot df x_column y_column (hue_of category_column))
  else if is_str viz_type "line"
  then Ok (Lineplot df x_column y_column (hue_of category_column))
  else if is_str viz_type "scatter"
  then Ok (Scatterplot df x_column y_column (hue_of category_column))
  else if is_str viz_type "histogram"
  then Ok (Histplot df x_column)
  else if is_str viz_type "boxplot"
  then Ok (if truthy category_column
           then Boxplot df category_column y_column
           else Boxplot df x_column y_column)
  else if is_str viz_type "heatmap"
  then Ok (if truthy x_column && truthy y_column && truthy category_column
           then HeatmapPivot df y_column x_column category_column
           else HeatmapCorr df)
  else if is_str viz_type "pie"
  then Ok (if truthy category_column
           then Pieplot df category_column
           else Pieplot df x_column)
  else Raise (unsupported_type E viz_type).

(** Style and figure set-up take constants and are not modelled. The
    selected call is made and may raise; titling, saving and encoding the
    figure are taken to succeed and give [savefig_base64]. *)
Definition _seaborn_viz (E : Env) (df : DataFrame)
    (viz_type x_column y_column category_column title : json) : M VizResult :=
  do c <- lift (select_plot E df viz_type x_column y_column category_column);
  do _u <- call (EvPlot c) (sns_plot E c);
  ret {| figure := savefig_base64 E c title;
         format := "base64_png";
         title := title;
         viz_type := viz_type;
         engine := "seaborn" |}.

Definition generate_visualization (E : Env) (df : DataFrame)
    (viz_type x_column y_column category_column title : json)
    (engine : string) : M VizResult :=
  if String.eqb engine "seaborn"
  then _seaborn_viz E df viz_type x_column y_column category_column title
  else raise (ValueError ("Unsupported visualization engine: " +:+ engine)).

End Viz.

(* ===================================================================== *)
(** ** [DataAnalysisAgent] (agent_orchestrator/agent.py) *)
(* ===================================================================== *)

Module Agent.
Import PyStr.

Definition with_engine (eng : DataAnalysisEngine) (self : DataAnalysisAgent)
    : DataAnalysisAgent :=
  {| conversation_history := conversation_history self;
     files := files self;
     data_analysis_engine := eng |}.

(** [self.conversation_history.append({"role": r, "content": c})] *)
Definition append_turn (r : Role) (c : string) (self : DataAnalysisAgent)
    : DataAnalysisAgent :=
  {| conversation_history := conversation_history self ++ [mkTurn r c];
     files := files self;
     data_analysis_engine := data_analysis_engine self |}.

(** [DataAnalysisAgent.process_file]: an empty [file_id] is replaced by the
    base name of the path; the processed data goes to the engine. *)
Definition process_file (E : Env) (file_path file_id : string)
    (self : DataAnalysisAgent) : Run Processed :=
  let file_id :=
    if String.eqb file_id EmptyString
    then FileProcessor.basename file_path else file_id in
  match FileProcessor.process_file E file_path with
  | (Ok processed_data, t) =>
      mkRun (Ok processed_data)
            (with_engine (Engine.add_data processed_data file_id
                            (data_analysis_engine self)) self)
            t
  | (Raise e, t) => mkRun (Raise e) self t
  end.

(** [list(self.files.keys())[0] if self.files else None] *)
Definition first_file (self : DataAnalysisAgent) : option string :=
  match dict_keys (files self) with
  | [] => None
  | k :: _ => Some k
  end.

Definition viz_keywords : list string :=
  ["plot"; "chart"; "graph"; "visualize"; "visualization";
   "histogram"; "line"; "bar"; "pie"; "scatter"; "boxplot"].

(** [any(keyword in query.lower() for keyword in viz_keywords)] *)
Definition viz_request (query : string) : bool :=
  existsb (fun keyword => contains keyword (lower query)) viz_keywords.

(** The clean-up of the model's text before [json.loads]. *)
Definition clean_response (response_text : string) : string :=
  let t := strip response_text in
  let t := if startswith t "```json" then slice_from t 7 else t in
  let t := if startswith t "```" then slice_from t 3 else t in
  let t := if endswith t "```" then slice_to t (-3) else t in
  strip t.

(** The body of the [try]: one call to the model, then [json.loads]. *)
Definition try_parse (E : Env) (query : string) (self : DataAnalysisAgent)
    : M json :=
  let prompt := VizPrompt query (dict_keys (files self)) in
  do response_text <- call (EvLlm prompt) (llm_invoke E prompt);
  lift (json_loads E (clean_response response_text)).

(** [default_params] as the [except] branch first builds it. *)
Definition default_params (query : string) (self : DataAnalysisAgent)
    : pydict json :=
  [ ("type", JStr (if contains "histogram" (lower query)
                   then "histogram" else "bar"));
    ("x_column", JNull);
    ("y_column", JNull);
    ("category_column", JNull);
    ("title", JNull);
    ("file_id", match first_file self with
                | Some k => JStr k
                | None => JNull
                end) ].

(** The body of [if 'x-axis' in query.lower()]: the value of [x_column]. *)
Definition x_column_of (query : string) : string :=
  let x_start := find "x-axis" (lower query) + 7 in
  let x_end := find_from "." query x_start in
  let x_end := if x_end =? -1 then len query else x_end in
  strip (slice query x_start x_end).

(** [if 'x-axis' in query.lower(): ... default_params['x_column'] = x_column] *)
Definition extract_x_column (query : string) (params : pydict json)
    : pydict json :=
  if contains "x-axis" (lower query)
  then dict_set "x_column" (JStr (x_column_of query)) params
  else params.

(** The body of [if 'title' in query.lower()]: the value of [title]. *)
Definition title_of (query : string) : string :=
  let title_start := find "title" (lower query) + 5 in
  let title_end := find_from "." query title_start in
  let title_end := if title_end =? -1 then len query else title_end in
  strip_chars is_quote_or_space (slice query title_start title_end).

(** [if 'title' in query.lower(): ... default_params['title'] = title] *)
Definition extract_title (query : string) (params : pydict json)
    : pydict json :=
  if contains "title" (lower query)
  then dict_set "title" (JStr (title_of query)) params
  else params.

(** The whole [except] branch. *)
Definition fallback_params (query : string) (self : DataAnalysisAgent)
    : pydict json :=
  extract_title query (extract_x_column query (default_params query self)).

(** [try: ... except Exception: ...]: whatever the body raises, the
    fallback dictionary is returned instead. *)
Definition _parse_visualization_request (E : Env) (query : string)
    (self : DataAnalysisAgent) : M json :=
  match try_parse E query self with
  | (Ok v, t) => (Ok v, t)
  | (Raise _, t) => (Ok (JObj (fallback_params query self)), t)
  end.

(** [viz_file_id and viz_file_id in self.data_analysis_engine.data_frames],
    then the frame: a falsy value is not looked up; a list or a dict cannot
    be hashed; a number or a boolean is no key of a dictionary of strings. *)
Definition frame_of (viz_file_id : json) (self : DataAnalysisAgent)
    : Res (option DataFrame) :=
  if truthy viz_file_id then
    match viz_file_id with
    | JStr k => Ok (data_frames (data_analysis_engine self) !! k)
    | JArr _ | JObj _ =>
        Raise (TypeError ("unhashable type: '" +:+ type_name viz_file_id +:+ "'"))
    | _ => Ok None
    end
  else Ok None.

Definition not_found_message (E : Env) (viz_file_id : json) : string :=
  "File " +:+ py_str (py_repr E) viz_file_id
  +:+ " not found or no data available for visualization".

Definition success_message (E : Env) (ty : json) : string :=
  "Here is the " +:+ py_str (py_repr E) ty +:+ " visualization you requested".

(** The visualization branch of [ask], after the parameters are parsed. *)
Definition visualize (E : Env) (self : DataAnalysisAgent) (file_id : string)
    (viz_params : json) : M Response :=
  do viz_file_id <- lift (py_get viz_params "file_id" (JStr file_id));
  do found <- lift (frame_of viz_file_id self);
  match found with
  | Some df =>
      do ty <- lift (py_get viz_params "type" (JStr "bar"));
      do x_column <- lift (py_get viz_params "x_column" JNull);
      do y_column <- lift (py_get viz_params "y_column" JNull);
      do category_column <- lift (py_get viz_params "category_column" JNull);
      do title <- lift (py_get viz_params "title" JNull);
      do viz_result <-
        Viz.generate_visualization E df ty x_column y_column category_column
          title "seaborn";
      do shown <- lift (py_getitem viz_params "type");
      ret (VisualizationResponse viz_result (success_message E shown))
  | None => ret (TextResponse (not_found_message E viz_file_id))
  end.

(** The two branches of [ask] that build [response]. *)
Definition respond (E : Env) (query : string) (self : DataAnalysisAgent)
    (file_id : string) : M Response :=
  if viz_request query then
    do viz_params <- _parse_visualization_request E query self;
    visualize E self file_id viz_params
  else
    do response <-
      Engine.analyze_data E [file_id] query (data_analysis_engine self);
    ret (TextResponse response).

Definition no_files : PyExc := ValueError "No files have been processed yet".

(** [DataAnalysisAgent.ask] *)
Definition ask (E : Env) (query : string) (self : DataAnalysisAgent)
    : Run Response :=
  let self := append_turn user query self in
  match first_file self with
  | None => mkRun (Raise no_files) self []
  | Some file_id =>
      if String.eqb file_id EmptyString then mkRun (Raise no_files) self []
      else
        match respond E query self file_id with
        | (Ok response, t) =>
            mkRun (Ok response)
                  (append_turn assistant (message_of response) self) t
        | (Raise e, t) => mkRun (Raise e) self t
        end
  end.

End Agent.

(* ===================================================================== *)
(** ** The upload step of the front end (frontend/app.py) *)
(* ===================================================================== *)

Module App.

(** [processed_data = agent.process_file(tmp_path, file_id)] followed by
    [agent.files[file_id] = processed_data]; an exception leaves [files]
    as it was. *)
Definition upload (E : Env) (tmp_path file_id : string)
    (agent : DataAnalysisAgent) : Run unit :=
  let r := Agent.process_file E tmp_path file_id agent in
  match outcome r with
  | Ok processed_data =>
      mkRun (Ok tt)
            {| conversation_history := conversation_history (final r);
               files := dict_set file_id processed_data (files (final r));
               data_analysis_engine := data_analysis_engine (final r) |}
            (trace r)
  | Raise e => mkRun (Raise e) (final r) (trace r)
  end.

End App.

(** A new agent: no history, no files, an empty engine. *)
Definition new_agent : DataAnalysisAgent :=
  {| conversation_history := [];
     files := [];
     data_analysis_engine := {| context := []; data_frames := ∅ |} |}.

(* ===================================================================== *)
(** ** Notions the statements use *)
(* ===================================================================== *)

(** The two intents [ask] distinguishes by its test on [viz_request]. *)
Inductive Intent : Type := Visualization | Analysis.

Definition classify (query : string) : Intent :=
  if Agent.viz_request query then Visualization else Analysis.

(** [sub] occurs in [s]. *)
Definition occurs_in (sub s : string) : Prop :=
  exists pre post : string, s = pre +:+ sub +:+ post.



(** The chart types [_seaborn_viz] has a branch for. *)
Definition chart_types : list string :=
  ["bar"; "line"; "scatter"; "histogram"; "boxplot"; "heatmap"; "pie"].

(** The extensions the specification lists as supported. *)
Definition listed_extensions : list string :=
  [".csv"; ".xlsx"; ".xls"; ".txt"; ".json"].

(** The prompt [_parse_visualization_request] sends. *)
Definition viz_prompt (query : string) (self : DataAnalysisAgent) : Prompt :=
  VizPrompt query (dict_keys (files self)).

(** The [try] body of [_parse_visualization_request] raises: the model call
    does, or [json.loads] does on the cleaned text. *)
Inductive extraction_fails (E : Env) (query : string)
    (self : DataAnalysisAgent) : Prop :=
| model_raises (e : PyExc) :
    llm_invoke E (viz_prompt query self) = Raise e ->
    extraction_fails E query self
| not_json (text : string) (e : PyExc) :
    llm_invoke E (viz_prompt query self) = Ok text ->
    json_loads E (Agent.clean_response text) = Raise e ->
    extraction_fails E query self.

(** The entry [_process_excel] stores for a sheet whose frame is
    [frames sheet_name]. *)
Definition sheet_entry (E : Env) (frames : string -> DataFrame)
    (sheet_name : string) : string * Table :=
  (sheet_name, FileProcessor.table_of E (frames sheet_name)).

(** A field of the dictionary a parse returned. *)
Definition field (key : string) (v : json) : option json :=
  match v with
  | JObj d => dict_lookup key d
  | _ => None
  end.

(* ===================================================================== *)
(** ** Sample collaborators and states *)
(* ===================================================================== *)

Module Sample.

(** [s] between double quotes. *)
Definition quoted (s : string) : string :=
  String PyStr.dquote (s +:+ String PyStr.dquote EmptyString).

Definition frame : DataFrame :=
  mkDataFrame [("Age", "int64"); ("Income", "int64")]
              [[JInt 31; JInt 52000]; [JInt 45; JInt 61000]].

Definition unreachable : PyExc := OtherError "ConnectError" "connection refused".

Definition not_decodable : PyExc := ValueError "Expecting value".

(** The model is unreachable; pandas reads [frame] from any table and
    finds the sheets Q1 and Q2 in any workbook. *)
Definition down : Env :=
  {| llm_invoke := fun _ => Raise unreachable;
     json_loads := fun _ => Raise not_decodable;
     py_repr := fun _ => "<object>";
     pd_read := fun _ => Ok frame;
     pd_sheet_names := fun _ => Ok ["Q1"; "Q2"];
     pd_summary := fun _ => "{}";
     sns_plot := fun _ => Ok tt;
     savefig_base64 := fun _ _ => "iVBORw0KGgo=" |}.

(** The model answers every prompt with [body] inside a code fence;
    [json.loads] decodes [body] to [decoded] and rejects any other text. *)
Definition replying (body : string) (decoded : json) : Env :=
  {| llm_invoke := fun _ =>
       Ok ("```json" +:+ Engine.newline +:+ body +:+ Engine.newline +:+ "```");
     json_loads := fun s =>
       if String.eqb s body then Ok decoded else Raise not_decodable;
     py_repr := py_repr down;
     pd_read := pd_read down;
     pd_sheet_names := pd_sheet_names down;
     pd_summary := pd_summary down;
     sns_plot := sns_plot down;
     savefig_base64 := savefig_base64 down |}.

(** The model answers with prose. *)
Definition chatty : Env :=
  {| llm_invoke := fun _ => Ok "Sure! Here is your chart.";
     json_loads := json_loads down;
     py_repr := py_repr down;
     pd_read := pd_read down;
     pd_sheet_names := pd_sheet_names down;
     pd_summary := pd_summary down;
     sns_plot := sns_plot down;
     savefig_base64 := savefig_base64 down |}.

(** An answer with an unknown chart type. *)
Definition donut_body : string :=
  "{" +:+ quoted "type" +:+ ": " +:+ quoted "donut" +:+ ", "
      +:+ quoted "x_column" +:+ ": " +:+ quoted "Age" +:+ ", "
      +:+ quoted "file_id" +:+ ": " +:+ quoted "loans.csv" +:+ "}".

Definition donut_params : json :=
  JObj [("type", JStr "donut"); ("x_column", JStr "Age");
        ("file_id", JStr "loans.csv")].

(** An answer without the type field. *)
Definition untyped_body : string :=
  "{" +:+ quoted "x_column" +:+ ": " +:+ quoted "Age" +:+ ", "
      +:+ quoted "y_column" +:+ ": " +:+ quoted "Income" +:+ ", "
      +:+ quoted "file_id" +:+ ": " +:+ quoted "loans.csv" +:+ "}".

Definition untyped_params : json :=
  JObj [("x_column", JStr "Age"); ("y_column", JStr "Income");
        ("file_id", JStr "loans.csv")].

(** An answer that names a dataset nobody uploaded. *)
Definition stray_body : string :=
  "{" +:+ quoted "type" +:+ ": " +:+ quoted "bar" +:+ ", "
      +:+ quoted "file_id" +:+ ": " +:+ quoted "sales.csv" +:+ "}".

Definition stray_params : json :=
  JObj [("type", JStr "bar"); ("file_id", JStr "sales.csv")].

(** The agent after loans.csv was uploaded. *)
Definition loans_agent : DataAnalysisAgent :=
  final (App.upload down "/tmp/tmpk3v9.csv" "loans.csv" new_agent).

(** The agent after the workbook wb.xlsx was uploaded. *)
Definition workbook_agent : DataAnalysisAgent :=
  final (App.upload down "/tmp/tmpq7x2.xlsx" "wb.xlsx" new_agent).

(** The second sheet of every workbook cannot be read. *)
Definition torn : Env :=
  {| llm_invoke := llm_invoke down;
     json_loads := json_loads down;
     py_repr := py_repr down;
     pd_read := fun c =>
       match c with
       | ReadExcel _ sheet =>
           if String.eqb sheet "Q2"
           then Raise (OtherError "BadZipFile" "File is not a zip file")
           else Ok frame
       | _ => Ok frame
       end;
     pd_sheet_names := pd_sheet_names down;
     pd_summary := pd_summary down;
     sns_plot := sns_plot down;
     savefig_base64 := savefig_base64 down |}.

(** An answer that is a list, not an object. *)
Definition list_body : string := "[" +:+ quoted "bar" +:+ "]".

Definition list_params : json := JArr [JStr "bar"].

(** An answer whose file_id is a list. *)
Definition listed_id_body : string :=
  "{" +:+ quoted "type" +:+ ": " +:+ quoted "bar" +:+ ", "
      +:+ quoted "file_id" +:+ ": [" +:+ quoted "loans.csv" +:+ "]}".

Definition listed_id_params : json :=
  JObj [("type", JStr "bar"); ("file_id", JArr [JStr "loans.csv"])].

(** A complete answer for a scatter plot of the uploaded table. *)
Definition scatter_body : string :=
  "{" +:+ quoted "type" +:+ ": " +:+ quoted "scatter" +:+ ", "
      +:+ quoted "x_column" +:+ ": " +:+ quoted "Age" +:+ ", "
      +:+ quoted "y_column" +:+ ": " +:+ quoted "Income" +:+ ", "
      +:+ quoted "category_column" +:+ ": null, "
      +:+ quoted "title" +:+ ": " +:+ quoted "Income by age" +:+ ", "
      +:+ quoted "file_id" +:+ ": " +:+ quoted "loans.csv" +:+ "}".

Definition scatter_params : json :=
  JObj [("type", JStr "scatter"); ("x_column", JStr "Age");
        ("y_column", JStr "Income"); ("category_column", JNull);
        ("title", JStr "Income by age"); ("file_id", JStr "loans.csv")].

End Sample.

(* ===================================================================== *)
(** ** Worked values *)
(* ===================================================================== *)

Example lower_example : PyStr.lower "Show Me a BAR chart" = "show me a bar chart".
Proof. reflexivity. Qed.

Example find_example : PyStr.find "x-axis" "plot with x-axis age" = 10.
Proof. reflexivity. Qed.

Example find_from_missing : PyStr.find_from "." "abc" 7 = -1.
Proof. reflexivity. Qed.

Example slice_example : PyStr.slice "```json{}" 7 (PyStr.len "```json{}") = "{}".
Proof. reflexivity. Qed.

Example strip_example : PyStr.strip "  a b  " = "a b".
Proof. reflexivity. Qed.

Example of_nat_example : PyStr.of_nat 40 = "40".
Proof. reflexivity. Qed.


(* ===================================================================== *)
(** ** Facts about the string operations *)
(* ===================================================================== *)

Section StringFacts.
Import PyStr.

Lemma app_empty_r (s : string) : s +:+ EmptyString = s.
Proof. induction s as [|c s IH]; simpl; [reflexivity | now f_equal]. Qed.

Lemma app_assoc' (a b c : string) : (a +:+ b) +:+ c = a +:+ b +:+ c.
Proof. induction a as [|x a IH]; simpl; [reflexivity | now f_equal]. Qed.

Lemma length_app (a b : string) :
  String.length (a +:+ b) = (String.length a + String.length b)%nat.
Proof. induction a as [|x a IH]; simpl; [reflexivity | now f_equal]. Qed.

Lemma lower_app (a b : string) : lower (a +:+ b) = lower a +:+ lower b.
Proof. induction a as [|x a IH]; simpl; [reflexivity | now f_equal]. Qed.


Lemma startswith_spec (s p : string) :
  startswith s p = true <-> exists post, s = p +:+ post.
Proof.
  revert s. induction p as [|a p IH]; intros s; simpl.
  - split; [intros _; now exists s | intros _; reflexivity].
  - destruct s as [|b s].
    + split; [discriminate | intros [post H]; discriminate].
    + rewrite andb_true_iff, Ascii.eqb_eq, IH. split.
      * intros [-> [post ->]]. now exists post.
      * intros [post H]. injection H as -> ->. split; [reflexivity | now exists post].
Qed.

Lemma contains_spec (sub s : string) :
  contains sub s = true <-> occurs_in sub s.
Proof.
  unfold occurs_in. induction s as [|c s IH].
  - simpl. rewrite orb_false_r, startswith_spec. split.
    + intros [post H]. now exists EmptyString, post.
    + intros [pre [post H]]. destruct pre; [now exists post | discriminate].
  - cbn [contains]. rewrite orb_true_iff, startswith_spec, IH. split.
    + intros [[post H] | [pre [post H]]].
      * now exists EmptyString, post.
      * exists (String c pre), post. simpl. now rewrite H.
    + intros [pre [post H]]. destruct pre as [|x pre].
      * left. now exists post.
      * right. injection H as -> ->. now exists pre, post.
Qed.

Lemma contains_false (sub s : string) :
  contains sub s = false <-> ~ occurs_in sub s.
Proof.
  rewrite <- contains_spec, not_true_iff_false. reflexivity.
Qed.





Lemma drop_empty (n : nat) : drop n EmptyString = EmptyString.
Proof. destruct n; reflexivity. Qed.

Lemma drop_length (n : nat) :
  forall s, String.length (drop n s) = (String.length s - n)%nat.
Proof.
  induction n as [|n IH]; intros s; simpl; [lia|].
  destruct s; simpl; [reflexivity | apply IH].
Qed.


Lemma drop_app (pre : string) :
  forall (k : nat) (rest : string),
    drop (String.length pre + k) (pre +:+ rest) = drop k rest.
Proof. induction pre as [|c pre IH]; intros k rest; simpl; [reflexivity | apply IH]. Qed.

Lemma take_all (s : string) : take (String.length s) s = s.
Proof. induction s as [|c s IH]; simpl; [reflexivity | now f_equal]. Qed.





End StringFacts.

(* ===================================================================== *)
(** ** Facts about parameter extraction and [ask] *)
(* ===================================================================== *)

Section AgentFacts.
Variable E : Env.

(** The history is no input of the extraction. *)
Lemma parse_ignores_history (query : string) (r : Role) (c : string)
    (self : DataAnalysisAgent) :
  Agent._parse_visualization_request E query (Agent.append_turn r c self)
  = Agent._parse_visualization_request E query self.
Proof. reflexivity. Qed.

(** A failing [try] body yields the fallback dictionary, after one call to
    the model. *)
Lemma parse_fallback (query : string) (self : DataAnalysisAgent) :
  extraction_fails E query self ->
  Agent._parse_visualization_request E query self
  = (Ok (JObj (Agent.fallback_params query self)), [EvLlm (viz_prompt query self)]).
Proof.
  intros H. unfold Agent._parse_visualization_request, Agent.try_parse,
    bind, call, lift.
  fold (viz_prompt query self).
  destruct H as [e H | text e H1 H2].
  - now rewrite H.
  - now rewrite H1, H2.
Qed.

(** A decoded answer is returned as it is. *)
Lemma parse_success (query : string) (self : DataAnalysisAgent)
    (text : string) (v : json) :
  llm_invoke E (viz_prompt query self) = Ok text ->
  json_loads E (Agent.clean_response text) = Ok v ->
  Agent._parse_visualization_request E query self
  = (Ok v, [EvLlm (viz_prompt query self)]).
Proof.
  intros H1 H2. unfold Agent._parse_visualization_request, Agent.try_parse,
    bind, call, lift.
  fold (viz_prompt query self). now rewrite H1, H2.
Qed.

(** Either the [try] body fails or the model's answer decodes. *)
Lemma extraction_cases (query : string) (self : DataAnalysisAgent) :
  extraction_fails E query self
  \/ exists text v,
       llm_invoke E (viz_prompt query self) = Ok text
       /\ json_loads E (Agent.clean_response text) = Ok v.
Proof.
  destruct (llm_invoke E (viz_prompt query self)) as [text|e] eqn:Hl.
  - destruct (json_loads E (Agent.clean_response text)) as [v|e] eqn:Hj.
    + right. now exists text, v.
    + left. now apply not_json with text e.
  - left. now apply model_raises with e.
Qed.

(** [ask] once the guard on [files] is passed. *)
Lemma ask_with_files (query : string) (self : DataAnalysisAgent)
    (file_id : string) :
  Agent.first_file self = Some file_id ->
  file_id <> EmptyString ->
  Agent.ask E query self
  = let self' := Agent.append_turn user query self in
    match Agent.respond E query self' file_id with
    | (Ok response, t) =>
        mkRun (Ok response)
              (Agent.append_turn assistant (message_of response) self') t
    | (Raise e, t) => mkRun (Raise e) self' t
    end.
Proof.
  intros Hf Hne. unfold Agent.ask.
  change (Agent.first_file (Agent.append_turn user query self))
    with (Agent.first_file self).
  rewrite Hf.
  destruct (String.eqb file_id EmptyString) eqn:Heq; [|reflexivity].
  apply String.eqb_eq in Heq. contradiction.
Qed.

End AgentFacts.

(* ===================================================================== *)
(** ** Intent classification *)
(* ===================================================================== *)

(** C3. The query is classified as a visualization request exactly when
    its lowercased text contains one of the eleven keywords, and as an
    analysis request otherwise; the three sample queries of the
    specification are classified as it says. *)
Theorem classify_by_keywords :
  (forall query : string,
      classify query = Visualization <->
      exists keyword : string,
        In keyword ["plot"; "chart"; "graph"; "visualize"; "visualization";
                    "histogram"; "line"; "bar"; "pie"; "scatter"; "boxplot"]
        /\ occurs_in keyword (PyStr.lower query))
  /\ (forall query : string,
         classify query = Analysis <->
         ~ exists keyword : string,
             In keyword ["plot"; "chart"; "graph"; "visualize"; "visualization";
                         "histogram"; "line"; "bar"; "pie"; "scatter"; "boxplot"]
             /\ occurs_in keyword (PyStr.lower query))
  /\ classify "show me a bar chart of sales" = Visualization
  /\ classify "what is the average loan amount" = Analysis
  /\ classify EmptyString = Analysis.
Proof.
  assert (Hviz : forall query,
             Agent.viz_request query = true <->
             exists keyword, In keyword Agent.viz_keywords
                             /\ occurs_in keyword (PyStr.lower query)).
  { intros query. unfold Agent.viz_request. rewrite existsb_exists.
    split; intros [k [Hin Hk]]; exists k; split; trivial;
      now apply contains_spec. }
  change ["plot"; "chart"; "graph"; "visualize"; "visualization";
          "histogram"; "line"; "bar"; "pie"; "scatter"; "boxplot"]
    with Agent.viz_keywords.
  repeat split; try reflexivity.
  - intros H. apply Hviz. unfold classify in H.
    destruct (Agent.viz_request query); [reflexivity | discriminate].
  - intros H. apply Hviz in H. unfold classify. now rewrite H.
  - intros H Hex. apply Hviz in Hex. unfold classify in H.
    rewrite Hex in H. discriminate.
  - intros H. unfold classify.
    destruct (Agent.viz_request query) eqn:Hq; [|reflexivity].
    elim H. now apply Hviz.
Qed.

(* ===================================================================== *)
(** ** The guard on an empty [files] dictionary *)
(* ===================================================================== *)

(** C8. With no file registered, [ask] raises the "no files" [ValueError]
    for every query, calls no collaborator (so not the model), and leaves
    [files] and the engine's dictionaries as they were; only the user turn
    is appended to the history. *)
Theorem ask_without_files (E : Env) (query : string) (self : DataAnalysisAgent) :
  files self = [] ->
  outcome (Agent.ask E query self)
    = Raise (ValueError "No files have been processed yet")
  /\ trace (Agent.ask E query self) = []
  /\ files (final (Agent.ask E query self)) = files self
  /\ data_analysis_engine (final (Agent.ask E query self))
     = data_analysis_engine self
  /\ conversation_history (final (Agent.ask E query self))
     = conversation_history self ++ [mkTurn user query].
Proof.
  destruct self as [history fs eng]. cbn [files]. intros ->.
  repeat split; reflexivity.
Qed.

Lemma ask_without_files_witness :
  files new_agent = []
  /\ outcome (Agent.ask Sample.chatty "plot the sales by region" new_agent)
     = Raise (ValueError "No files have been processed yet")
  /\ trace (Agent.ask Sample.chatty "plot the sales by region" new_agent) = [].
Proof.
  split; [reflexivity|].
  pose proof (ask_without_files Sample.chatty "plot the sales by region"
                new_agent eq_refl) as H.
  split; [apply H | apply H].
Defined.

(* ===================================================================== *)
(** ** The fallback dictionary *)
(* ===================================================================== *)

Section Fallback.
Import PyStr.

(** The fallback dictionary, field by field, in insertion order. *)
Lemma fallback_params_fields (query : string) (self : DataAnalysisAgent) :
  Agent.fallback_params query self
  = [ ("type", JStr (if contains "histogram" (lower query)
                     then "histogram" else "bar"));
      ("x_column", if contains "x-axis" (lower query)
                   then JStr (Agent.x_column_of query) else JNull);
      ("y_column", JNull);
      ("category_column", JNull);
      ("title", if contains "title" (lower query)
                then JStr (Agent.title_of query) else JNull);
      ("file_id", match Agent.first_file self with
                  | Some k => JStr k
                  | None => JNull
                  end) ].
Proof.
  unfold Agent.fallback_params, Agent.extract_title, Agent.extract_x_column,
    Agent.default_params.
  destruct (contains "x-axis" (lower query));
    destruct (contains "title" (lower query)); reflexivity.
Qed.


End Fallback.

(* ===================================================================== *)
(** ** Parameter extraction *)
(* ===================================================================== *)

(** C9. [_parse_visualization_request] returns a value for every query
    and every behaviour of the model (it never raises), after exactly one
    call to the model. The value is the decoded answer, or, when the [try]
    body failed, a dictionary with exactly the six fields type, x_column,
    y_column, category_column, title and file_id, whose type is
    'histogram' or 'bar'. *)
Theorem parse_visualization_request_total (E : Env) (query : string)
    (self : DataAnalysisAgent) :
  exists v : json,
    Agent._parse_visualization_request E query self
    = (Ok v, [EvLlm (viz_prompt query self)])
    /\ ((exists text : string,
            llm_invoke E (viz_prompt query self) = Ok text
            /\ json_loads E (Agent.clean_response text) = Ok v)
        \/ (extraction_fails E query self
            /\ exists (ty : string) (x t fid : json),
                 v = JObj [("type", JStr ty); ("x_column", x);
                           ("y_column", JNull); ("category_column", JNull);
                           ("title", t); ("file_id", fid)]
                 /\ (ty = "histogram" \/ ty = "bar"))).
Proof.
  destruct (extraction_cases E query self) as [Hfail | [text [v [Hl Hj]]]].
  - exists (JObj (Agent.fallback_params query self)). split.
    + now apply parse_fallback.
    + right. split; [exact Hfail|].
      rewrite fallback_params_fields.
      do 4 eexists. split; [reflexivity|].
      destruct (PyStr.contains "histogram" (PyStr.lower query)); auto.
  - exists v. split.
    + now apply parse_success with text.
    + left. now exists text.
Qed.

(** C2, as the code has it. When the model call raises or its cleaned
    output is not valid JSON, the fallback has type 'histogram' if the
    lowercased query contains "histogram" and 'bar' otherwise; y_column and
    category_column are unset; x_column is unset when the lowercased query
    does not contain "x-axis"; file_id is the first key of [files] (unset
    when there is none). For the query "Create a histogram of Age" and the
    single key "loans.csv" this gives histogram and "loans.csv". *)
Theorem fallback_defaults (E : Env) (query : string) (self : DataAnalysisAgent) :
  extraction_fails E query self ->
  exists v : json,
    Agent._parse_visualization_request E query self
    = (Ok v, [EvLlm (viz_prompt query self)])
    /\ (occurs_in "histogram" (PyStr.lower query) ->
        field "type" v = Some (JStr "histogram"))
    /\ (~ occurs_in "histogram" (PyStr.lower query) ->
        field "type" v = Some (JStr "bar"))
    /\ (~ occurs_in "x-axis" (PyStr.lower query) ->
        field "x_column" v = Some JNull)
    /\ field "y_column" v = Some JNull
    /\ field "category_column" v = Some JNull
    /\ field "file_id" v
       = Some (match dict_keys (files self) with
               | k :: _ => JStr k
               | [] => JNull
               end)
    /\ (query = "Create a histogram of Age" ->
        dict_keys (files self) = ["loans.csv"] ->
        field "type" v = Some (JStr "histogram")
        /\ field "file_id" v = Some (JStr "loans.csv")).
Proof.
  intros Hfail. exists (JObj (Agent.fallback_params query self)).
  split; [now apply parse_fallback|].
  rewrite fallback_params_fields. cbn [field].
  assert (Hfid : dict_lookup "file_id"
            [("type", JStr (if PyStr.contains "histogram" (PyStr.lower query)
                            then "histogram" else "bar"));
             ("x_column", if PyStr.contains "x-axis" (PyStr.lower query)
                          then JStr (Agent.x_column_of query) else JNull);
             ("y_column", JNull); ("category_column", JNull);
             ("title", if PyStr.contains "title" (PyStr.lower query)
                       then JStr (Agent.title_of query) else JNull);
             ("file_id", match Agent.first_file self with
                         | Some k => JStr k
                         | None => JNull
                         end)]
          = Some (match dict_keys (files self) with
                  | k :: _ => JStr k
                  | [] => JNull
                  end)).
  { unfold Agent.first_file. destruct (dict_keys (files self)); reflexivity. }
  repeat split; try reflexivity; try exact Hfid.
  - intros H. apply contains_spec in H. cbn [dict_lookup String.eqb].
    cbn. now rewrite H.
  - intros H. apply contains_false in H. cbn. now rewrite H.
  - intros H. apply contains_false in H. cbn. now rewrite H.
  - subst query. reflexivity.
  - rewrite Hfid. now rewrite H0.
Qed.

Lemma fallback_defaults_witness :
  extraction_fails Sample.down "Create a histogram of Age" Sample.loans_agent
  /\ exists v : json,
       fst (Agent._parse_visualization_request Sample.down
              "Create a histogram of Age" Sample.loans_agent) = Ok v
       /\ field "type" v = Some (JStr "histogram")
       /\ field "file_id" v = Some (JStr "loans.csv").
Proof.
  assert (Hfail : extraction_fails Sample.down "Create a histogram of Age"
                    Sample.loans_agent)
    by (apply model_raises with Sample.unreachable; reflexivity).
  split; [exact Hfail|].
  destruct (fallback_defaults Sample.down "Create a histogram of Age"
              Sample.loans_agent Hfail) as [v [Hv [_ [_ [_ [_ [_ [_ Hex]]]]]]]].
  exists v. split; [now rewrite Hv|].
  apply Hex; reflexivity.
Defined.

(** C2 as stated fails: with the model down, the query below contains
    "x-axis" and the fallback sets x_column to "Age" instead of leaving it
    unset. *)
Lemma fallback_x_column_counterexample :
  extraction_fails Sample.down "Create a bar chart with x-axis Age"
    Sample.loans_agent
  /\ exists v : json,
       Agent._parse_visualization_request Sample.down
         "Create a bar chart with x-axis Age" Sample.loans_agent
       = (Ok v, [EvLlm (VizPrompt "Create a bar chart with x-axis Age"
                          ["loans.csv"])])
       /\ field "x_column" v = Some (JStr "Age")
       /\ field "x_column" v <> Some JNull.
Proof.
  split.
  - apply model_raises with Sample.unreachable. reflexivity.
  - eexists. split; [reflexivity|]. split; [reflexivity | discriminate].
Qed.




(* ===================================================================== *)
(** ** File ingestion *)
(* ===================================================================== *)

(** C5, as the code has it. A file whose extension is none of .csv,
    .xlsx, .xls, .txt, .doc, .docx, .pdf and .json is rejected with the
    "unsupported extension" [ValueError] before any reader is called, and
    the agent registers nothing. *)
Theorem unsupported_extension_rejected (E : Env) (file_path file_id : string)
    (self : DataAnalysisAgent) :
  ~ In (snd (FileProcessor.splitext file_path))
       [".csv"; ".xlsx"; ".xls"; ".txt"; ".doc"; ".docx"; ".pdf"; ".json"] ->
  FileProcessor.process_file E file_path
  = (Raise (ValueError ("Unsupported file extension: "
                        +:+ snd (FileProcessor.splitext file_path))), [])
  /\ Agent.process_file E file_path file_id self
     = mkRun (Raise (ValueError ("Unsupported file extension: "
                                 +:+ snd (FileProcessor.splitext file_path))))
             self [].
Proof.
  intros Hext.
  assert (H : FileProcessor.process_file E file_path
              = (Raise (FileProcessor.unsupported
                          (snd (FileProcessor.splitext file_path))), [])).
  { unfold FileProcessor.process_file.
    destruct (existsb (String.eqb (snd (FileProcessor.splitext file_path)))
                FileProcessor.supported_extensions) eqn:Hex; [|reflexivity].
    apply existsb_exists in Hex as [x [Hin Hx]].
    apply String.eqb_eq in Hx. subst x. contradiction. }
  split; [exact H|].
  unfold Agent.process_file. now rewrite H.
Qed.

Lemma unsupported_extension_rejected_witness :
  ~ In (snd (FileProcessor.splitext "/tmp/notes.md"))
       [".csv"; ".xlsx"; ".xls"; ".txt"; ".doc"; ".docx"; ".pdf"; ".json"]
  /\ FileProcessor.process_file Sample.down "/tmp/notes.md"
     = (Raise (ValueError "Unsupported file extension: .md"), []).
Proof.
  assert (Hext : ~ In (snd (FileProcessor.splitext "/tmp/notes.md"))
                   [".csv"; ".xlsx"; ".xls"; ".txt"; ".doc"; ".docx"; ".pdf";
                    ".json"]).
  { replace (snd (FileProcessor.splitext "/tmp/notes.md")) with ".md"
      by (vm_compute; reflexivity).
    cbn. intros H. repeat (destruct H as [H | H]; [discriminate H|]). exact H. }
  split; [exact Hext|].
  exact (proj1 (unsupported_extension_rejected Sample.down "/tmp/notes.md"
                  "notes.md" new_agent Hext)).
Defined.

(** C5 as stated fails: .pdf is outside the five listed extensions, yet
    [process_file] does not raise the "unsupported extension" error for
    it. The extension passes the check and the missing [_process_pdf]
    method raises an [AttributeError]. *)
Lemma pdf_extension_counterexample :
  snd (FileProcessor.splitext "report.pdf") = ".pdf"
  /\ ~ In ".pdf" listed_extensions
  /\ FileProcessor.process_file Sample.down "report.pdf"
     = (Raise (AttributeError
                 "'FileProcessor' object has no attribute '_process_pdf'"), [])
  /\ FileProcessor.process_file Sample.down "report.pdf"
     <> (Raise (ValueError "Unsupported file extension: .pdf"), []).
Proof.
  split; [vm_compute; reflexivity|]. split.
  - cbn. intros H. repeat (destruct H as [H | H]; [discriminate H|]). exact H.
  - split; [vm_compute; reflexivity|].
    intros H. vm_compute in H. discriminate H.
Qed.

Section Workbooks.
Variable E : Env.
Variable file_path : string.
Variable frames : string -> DataFrame.

(** Assigning a key the dictionary does not have appends it. *)
Lemma dict_set_fresh {V : Type} (k : string) (v : V) (d : pydict V) :
  dict_lookup k d = None -> dict_set k v d = d ++ [(k, v)].
Proof.
  induction d as [|[k' v'] d IH]; simpl; [reflexivity|].
  destruct (String.eqb k' k); [discriminate|].
  intros H. now rewrite IH.
Qed.

Lemma dict_lookup_snoc_ne {V : Type} (k k' : string) (v : V) (d : pydict V) :
  k' <> k -> dict_lookup k (d ++ [(k', v)]) = dict_lookup k d.
Proof.
  intros Hne. induction d as [|[k0 v0] d IH]; simpl.
  - destruct (String.eqb k' k) eqn:Heq; [|reflexivity].
    apply String.eqb_eq in Heq. contradiction.
  - now rewrite IH.
Qed.

(** The loop reads every sheet once, in order, and stores each under its
    name. *)
Lemma read_sheets_all (names : list string) :
  forall acc : pydict Table,
    (forall s, In s names ->
               pd_read E (ReadExcel file_path s) = Ok (frames s)) ->
    NoDup names ->
    (forall s, In s names -> dict_lookup s acc = None) ->
    FileProcessor.read_sheets E file_path names acc
    = (Ok (acc ++ map (sheet_entry E frames) names),
       map (fun s => EvParse (ReadExcel file_path s)) names).
Proof.
  induction names as [|s names IH]; intros acc Hread Hnd Hfresh.
  - simpl. now rewrite app_nil_r.
  - apply NoDup_cons in Hnd as [Hnotin Hnd].
    cbn [FileProcessor.read_sheets]. unfold bind, call.
    rewrite (Hread s) by now left.
    rewrite dict_set_fresh by (apply Hfresh; now left).
    rewrite IH.
    + cbn [map]. now rewrite <- app_assoc.
    + intros s' Hs'. apply Hread. now right.
    + exact Hnd.
    + intros s' Hs'. rewrite dict_lookup_snoc_ne.
      * apply Hfresh. now right.
      * intros ->. apply Hnotin. now apply list_elem_of_In.
Qed.

Lemma sheet_key_inj (file_id s1 s2 : string) :
  Engine.sheet_key file_id s1 = Engine.sheet_key file_id s2 -> s1 = s2.
Proof.
  unfold Engine.sheet_key. intros H.
  apply (inj (String.app file_id)) in H.
  now apply (inj (String.app "_")) in H.
Qed.

(** What the loop of [add_data] leaves in [data_frames]. *)
Lemma add_sheets_lookup (file_id : string) (names : list string) :
  forall dfs : gmap string DataFrame,
    NoDup names ->
    let dfs' :=
      foldl (fun acc st =>
               <[Engine.sheet_key file_id (fst st) := data (snd st)]> acc)
            dfs (map (sheet_entry E frames) names) in
    (forall s, In s names ->
               dfs' !! Engine.sheet_key file_id s = Some (frames s))
    /\ (forall k, (forall s, In s names -> k <> Engine.sheet_key file_id s) ->
                  dfs' !! k = dfs !! k).
Proof.
  induction names as [|s0 names IH]; intros dfs Hnd; cbn zeta.
  - split; [intros s [] | reflexivity].
  - apply NoDup_cons in Hnd as [Hnotin Hnd]. cbn [map foldl sheet_entry fst snd].
    destruct (IH (<[Engine.sheet_key file_id s0 := frames s0]> dfs) Hnd)
      as [IH1 IH2].
    split.
    + intros s [<- | Hs].
      * rewrite IH2; [apply lookup_insert_eq|].
        intros s Hs Heq. apply sheet_key_inj in Heq. subst s.
        apply Hnotin. now apply list_elem_of_In.
      * now apply IH1.
    + intros k Hk. rewrite IH2.
      * apply lookup_insert_ne. intros Heq. apply (Hk s0); [now left | easy].
      * intros s Hs. apply Hk. now right.
Qed.

End Workbooks.

(** C7. For a workbook with the sheets [names] (pairwise distinct, all
    readable), ingestion returns exactly those sheet names with one table
    per sheet, and registers one frame per sheet under the key
    "{file_id}_{sheet_name}": these are [length names] distinct keys, each
    bound to its sheet's frame, and every other key keeps its binding. *)
Theorem excel_sheets_registered (E : Env) (file_path file_id : string)
    (self : DataAnalysisAgent) (names : list string)
    (frames : string -> DataFrame) :
  snd (FileProcessor.splitext file_path) = ".xlsx"
  \/ snd (FileProcessor.splitext file_path) = ".xls" ->
  file_id <> EmptyString ->
  pd_sheet_names E file_path = Ok names ->
  (forall s, In s names -> pd_read E (ReadExcel file_path s) = Ok (frames s)) ->
  NoDup names ->
  exists sheets : pydict Table,
    outcome (Agent.process_file E file_path file_id self)
    = Ok (Workbook sheets names)
    /\ dict_keys sheets = names
    /\ (forall s, In s names ->
          data_frames (data_analysis_engine
                         (final (Agent.process_file E file_path file_id self)))
            !! (file_id +:+ "_" +:+ s) = Some (frames s))
    /\ (forall k, (forall s, In s names -> k <> file_id +:+ "_" +:+ s) ->
          data_frames (data_analysis_engine
                         (final (Agent.process_file E file_path file_id self)))
            !! k = data_frames (data_analysis_engine self) !! k)
    /\ NoDup (map (fun s => file_id +:+ "_" +:+ s) names)
    /\ length (map (fun s => file_id +:+ "_" +:+ s) names) = length names.
Proof.
  intros Hext Hid Hnames Hread Hnd.
  set (entry := sheet_entry E frames).
  assert (Hproc : FileProcessor.process_file E file_path
                  = (Ok (Workbook (map entry names) names),
                     EvParse (OpenExcel file_path)
                     :: map (fun s => EvParse (ReadExcel file_path s)) names)).
  { assert (Hexcel : FileProcessor._process_excel E file_path
                     = (Ok (Workbook (map entry names) names),
                        EvParse (OpenExcel file_path)
                        :: map (fun s => EvParse (ReadExcel file_path s)) names)).
    { unfold FileProcessor._process_excel, bind, call. rewrite Hnames.
      rewrite (read_sheets_all E file_path frames names [] Hread Hnd)
        by reflexivity.
      unfold ret. cbn [app]. now rewrite app_nil_r. }
    unfold FileProcessor.process_file.
    destruct Hext as [-> | ->]; exact Hexcel. }
  exists (map entry names).
  unfold Agent.process_file. rewrite Hproc.
  destruct (String.eqb file_id EmptyString) eqn:Heq.
  { apply String.eqb_eq in Heq. contradiction. }
  cbn [outcome final Agent.with_engine data_analysis_engine Engine.add_data
       data_frames].
  destruct (add_sheets_lookup E frames file_id names
              (data_frames (data_analysis_engine self)) Hnd) as [H1 H2].
  split; [reflexivity|]. split.
  { unfold dict_keys. rewrite map_map. apply map_id. }
  split; [exact H1|]. split; [exact H2|]. split.
  - apply NoDup_fmap_2; [|exact Hnd].
    intros s1 s2. apply sheet_key_inj.
  - apply length_map.
Qed.

Lemma excel_sheets_registered_witness :
  NoDup ["Q1"; "Q2"]
  /\ exists sheets : pydict Table,
       outcome (Agent.process_file Sample.down "/tmp/tmpq7x2.xlsx" "wb.xlsx"
                  new_agent)
       = Ok (Workbook sheets ["Q1"; "Q2"])
       /\ dict_keys sheets = ["Q1"; "Q2"]
       /\ data_frames (data_analysis_engine
                         (final (Agent.process_file Sample.down
                                   "/tmp/tmpq7x2.xlsx" "wb.xlsx" new_agent)))
            !! "wb.xlsx_Q2" = Some Sample.frame.
Proof.
  assert (Hnd : NoDup ["Q1"; "Q2"]).
  { apply NoDup_cons. split.
    - intros H. apply list_elem_of_In in H. destruct H as [H | []]. discriminate H.
    - apply NoDup_cons. split; [|apply NoDup_nil; exact I].
      intros H. apply list_elem_of_In in H. destruct H. }
  split; [exact Hnd|].
  destruct (excel_sheets_registered Sample.down "/tmp/tmpq7x2.xlsx" "wb.xlsx"
              new_agent ["Q1"; "Q2"] (fun _ => Sample.frame))
    as [sheets [Hout [Hkeys [Hreg _]]]].
  - left. reflexivity.
  - discriminate.
  - reflexivity.
  - intros s _. reflexivity.
  - exact Hnd.
  - exists sheets. split; [exact Hout|]. split; [exact Hkeys|].
    apply (Hreg "Q2"). right. left. reflexivity.
Defined.

(* ===================================================================== *)
(** ** The visualization branch of [ask] *)
(* ===================================================================== *)

Section VisualizationBranch.
Variable E : Env.

(** The extraction always returns, after one call to the model. *)
Lemma parse_returns (query : string) (self : DataAnalysisAgent) :
  exists v : json,
    Agent._parse_visualization_request E query self
    = (Ok v, [EvLlm (viz_prompt query self)]).
Proof.
  destruct (extraction_cases E query self) as [Hfail | [text [v [Hl Hj]]]].
  - eexists. now apply parse_fallback.
  - exists v. now apply parse_success with text.
Qed.

Lemma classify_viz_request (query : string) :
  classify query = Visualization -> Agent.viz_request query = true.
Proof.
  unfold classify. destruct (Agent.viz_request query);
    [reflexivity | discriminate].
Qed.

(** A string that is no key of [data_frames] resolves to no frame. *)
Lemma frame_of_unknown (k : string) (self : DataAnalysisAgent) :
  data_frames (data_analysis_engine self) !! k = None ->
  Agent.frame_of (JStr k) self = Ok None.
Proof.
  intros H. unfold Agent.frame_of. destruct (truthy (JStr k)); [|reflexivity].
  now rewrite H.
Qed.

(** A non-empty key of [data_frames] resolves to its frame. *)
Lemma frame_of_known (k : string) (df : DataFrame) (self : DataAnalysisAgent) :
  k <> EmptyString ->
  data_frames (data_analysis_engine self) !! k = Some df ->
  Agent.frame_of (JStr k) self = Ok (Some df).
Proof.
  intros Hk H. unfold Agent.frame_of, truthy.
  destruct (String.eqb k EmptyString) eqn:Heq.
  - apply String.eqb_eq in Heq. contradiction.
  - cbn. now rewrite H.
Qed.

(** No branch of [_seaborn_viz] matches a value outside the seven chart
    types. *)
Lemma select_plot_unsupported (df : DataFrame) (ty x y c : json) :
  (forall s : string, In s chart_types -> ty <> JStr s) ->
  Viz.select_plot E df ty x y c = Raise (Viz.unsupported_type E ty).
Proof.
  intros Hty.
  assert (Hno : forall s, In s chart_types -> is_str ty s = false).
  { intros s Hs. destruct ty; try reflexivity. cbn.
    destruct (String.eqb s0 s) eqn:Heq; [|reflexivity].
    apply String.eqb_eq in Heq. subst s0. now elim (Hty s Hs). }
  unfold Viz.select_plot.
  rewrite !Hno by (cbn; tauto). reflexivity.
Qed.

(** The visualization branch on a dictionary of parameters, step by
    step: resolve the frame, render, then format the message. *)
Lemma visualize_dict (self : DataAnalysisAgent) (file_id : string)
    (d : pydict json) :
  Agent.visualize E self file_id (JObj d)
  = match Agent.frame_of (dict_get "file_id" (JStr file_id) d) self with
    | Raise e => (Raise e, [])
    | Ok None =>
        (Ok (TextResponse
               (Agent.not_found_message E (dict_get "file_id" (JStr file_id) d))),
         [])
    | Ok (Some df) =>
        match Viz.generate_visualization E df
                (dict_get "type" (JStr "bar") d)
                (dict_get "x_column" JNull d)
                (dict_get "y_column" JNull d)
                (dict_get "category_column" JNull d)
                (dict_get "title" JNull d) "seaborn" with
        | (Raise e, t) => (Raise e, t)
        | (Ok viz_result, t) =>
            match dict_lookup "type" d with
            | Some shown =>
                (Ok (VisualizationResponse viz_result
                       (Agent.success_message E shown)), t)
            | None => (Raise (KeyError "type"), t)
            end
        end
    end.
Proof.
  unfold Agent.visualize, bind, lift, py_get, py_getitem, ret.
  destruct (Agent.frame_of (dict_get "file_id" (JStr file_id) d) self)
    as [[df|]|e]; try reflexivity.
  destruct (Viz.generate_visualization E df _ _ _ _ _ _) as [[viz_result|e] t];
    [|reflexivity].
  destruct (dict_lookup "type" d); cbn; now rewrite app_nil_r.
Qed.

(** The response to a visualization query, from the parsed parameters. *)
Lemma respond_visualization (query : string) (self : DataAnalysisAgent)
    (file_id : string) (v : json) :
  Agent.viz_request query = true ->
  Agent._parse_visualization_request E query self
  = (Ok v, [EvLlm (viz_prompt query self)]) ->
  Agent.respond E query (Agent.append_turn user query self) file_id
  = (fst (Agent.visualize E self file_id v),
     EvLlm (viz_prompt query self) :: snd (Agent.visualize E self file_id v)).
Proof.
  intros Hviz Hv. unfold Agent.respond. rewrite Hviz, parse_ignores_history, Hv.
  unfold bind.
  change (Agent.visualize E (Agent.append_turn user query self) file_id v)
    with (Agent.visualize E self file_id v).
  now destruct (Agent.visualize E self file_id v) as [r t].
Qed.

End VisualizationBranch.

(** C1, as the code has it. For a visualization query whose extracted
    file_id is a string that is no key of [data_frames], [ask] does not
    raise: it returns a text response saying that the file was not found,
    after the single call to the model and without rendering. The history
    gains the user turn and one assistant turn that carries this message;
    [files] and the engine are unchanged. *)
Theorem ask_unknown_dataset (E : Env) (query : string)
    (self : DataAnalysisAgent) (file_id : string) (d : pydict json)
    (k : string) :
  Agent.first_file self = Some file_id ->
  file_id <> EmptyString ->
  classify query = Visualization ->
  fst (Agent._parse_visualization_request E query self) = Ok (JObj d) ->
  dict_get "file_id" (JStr file_id) d = JStr k ->
  data_frames (data_analysis_engine self) !! k = None ->
  outcome (Agent.ask E query self)
  = Ok (TextResponse
          ("File " +:+ k +:+ " not found or no data available for visualization"))
  /\ conversation_history (final (Agent.ask E query self))
     = conversation_history self
       ++ [mkTurn user query;
           mkTurn assistant
             ("File " +:+ k
              +:+ " not found or no data available for visualization")]
  /\ files (final (Agent.ask E query self)) = files self
  /\ data_analysis_engine (final (Agent.ask E query self))
     = data_analysis_engine self
  /\ trace (Agent.ask E query self) = [EvLlm (viz_prompt query self)].
Proof.
  intros Hfirst Hne Hviz Hparse Hget Hmissing.
  apply classify_viz_request in Hviz.
  destruct (parse_returns E query self) as [v Hv].
  rewrite Hv in Hparse. cbn [fst] in Hparse. injection Hparse as ->.
  rewrite (ask_with_files E query self file_id Hfirst Hne). cbv zeta.
  rewrite (respond_visualization E query self file_id _ Hviz Hv).
  rewrite visualize_dict, Hget, frame_of_unknown by exact Hmissing.
  cbn. rewrite <- app_assoc. repeat split; reflexivity.
Qed.

Lemma ask_unknown_dataset_witness :
  Agent.first_file Sample.loans_agent = Some "loans.csv"
  /\ classify "plot the sales per region" = Visualization
  /\ data_frames (data_analysis_engine Sample.loans_agent) !! "sales.csv" = None
  /\ outcome (Agent.ask (Sample.replying Sample.stray_body Sample.stray_params)
                "plot the sales per region" Sample.loans_agent)
     = Ok (TextResponse
             "File sales.csv not found or no data available for visualization").
Proof.
  split; [reflexivity|]. split; [reflexivity|]. split; [reflexivity|].
  apply (ask_unknown_dataset (Sample.replying Sample.stray_body Sample.stray_params)
           "plot the sales per region" Sample.loans_agent "loans.csv"
           [("type", JStr "bar"); ("file_id", JStr "sales.csv")] "sales.csv").
  - reflexivity.
  - discriminate.
  - reflexivity.
  - reflexivity.
  - reflexivity.
  - reflexivity.
Defined.

(** C1 as stated fails. After the workbook wb.xlsx is uploaded its frames
    are registered per sheet, so the fallback's file_id "wb.xlsx" is no key
    of [data_frames]; [ask] then returns a text response and records it as
    an assistant turn. No exception reaches the caller. *)
Lemma unknown_dataset_counterexample :
  classify "plot a bar chart of Age" = Visualization
  /\ fst (Agent._parse_visualization_request Sample.down
            "plot a bar chart of Age" Sample.workbook_agent)
     = Ok (JObj [("type", JStr "bar"); ("x_column", JNull); ("y_column", JNull);
                 ("category_column", JNull); ("title", JNull);
                 ("file_id", JStr "wb.xlsx")])
  /\ data_frames (data_analysis_engine Sample.workbook_agent) !! "wb.xlsx" = None
  /\ outcome (Agent.ask Sample.down "plot a bar chart of Age"
                Sample.workbook_agent)
     = Ok (TextResponse
             "File wb.xlsx not found or no data available for visualization")
  /\ (forall e : PyExc,
         outcome (Agent.ask Sample.down "plot a bar chart of Age"
                    Sample.workbook_agent) <> Raise e)
  /\ conversation_history
       (final (Agent.ask Sample.down "plot a bar chart of Age"
                 Sample.workbook_agent))
     = [mkTurn user "plot a bar chart of Age";
        mkTurn assistant
          "File wb.xlsx not found or no data available for visualization"].
Proof.
  assert (Hout : outcome (Agent.ask Sample.down "plot a bar chart of Age"
                            Sample.workbook_agent)
                 = Ok (TextResponse
                         "File wb.xlsx not found or no data available for visualization"))
    by (vm_compute; reflexivity).
  split; [reflexivity|]. split; [reflexivity|]. split; [reflexivity|].
  split; [exact Hout|]. split; [|reflexivity].
  intros e. rewrite Hout. discriminate.
Qed.

(** C6. When the model's answer decodes to a dictionary whose type is
    none of the seven chart types, the extraction returns the dictionary
    as it is, the render call on the resolved frame raises the
    "unsupported visualization type" [ValueError] without drawing, and
    [ask] raises that same error to its caller, leaving only the user turn
    in the history. *)
Theorem unsupported_chart_type_propagates (E : Env) (query : string)
    (self : DataAnalysisAgent) (file_id text : string) (d : pydict json)
    (ty : json) (k : string) (df : DataFrame) :
  Agent.first_file self = Some file_id ->
  file_id <> EmptyString ->
  classify query = Visualization ->
  llm_invoke E (viz_prompt query self) = Ok text ->
  json_loads E (Agent.clean_response text) = Ok (JObj d) ->
  dict_lookup "type" d = Some ty ->
  (forall s : string,
      In s ["bar"; "line"; "scatter"; "histogram"; "boxplot"; "heatmap"; "pie"] ->
      ty <> JStr s) ->
  dict_get "file_id" (JStr file_id) d = JStr k ->
  k <> EmptyString ->
  data_frames (data_analysis_engine self) !! k = Some df ->
  fst (Agent._parse_visualization_request E query self) = Ok (JObj d)
  /\ Viz.generate_visualization E df ty
       (dict_get "x_column" JNull d) (dict_get "y_column" JNull d)
       (dict_get "category_column" JNull d) (dict_get "title" JNull d)
       "seaborn"
     = (Raise (ValueError ("Unsupported visualization type: "
                           +:+ py_str (py_repr E) ty)), [])
  /\ Agent.ask E query self
     = mkRun (Raise (ValueError ("Unsupported visualization type: "
                                 +:+ py_str (py_repr E) ty)))
             (Agent.append_turn user query self)
             [EvLlm (viz_prompt query self)].
Proof.
  intros Hfirst Hne Hviz Hl Hj Hty Hout Hget Hk Hdf.
  apply classify_viz_request in Hviz.
  pose proof (parse_success E query self text (JObj d) Hl Hj) as Hv.
  assert (Hrender : forall x y c t,
             Viz.generate_visualization E df ty x y c t "seaborn"
             = (Raise (Viz.unsupported_type E ty), [])).
  { intros x y c t. unfold Viz.generate_visualization, Viz._seaborn_viz.
    cbn [String.eqb Ascii.eqb Bool.eqb]. unfold bind, lift.
    now rewrite (select_plot_unsupported E df ty x y c Hout). }
  split; [now rewrite Hv|]. split; [apply Hrender|].
  rewrite (ask_with_files E query self file_id Hfirst Hne). cbv zeta.
  rewrite (respond_visualization E query self file_id _ Hviz Hv).
  rewrite visualize_dict, Hget, (frame_of_known k df self Hk Hdf).
  replace (dict_get "type" (JStr "bar") d) with ty
    by (unfold dict_get; now rewrite Hty).
  rewrite Hrender. reflexivity.
Qed.

Lemma unsupported_chart_type_propagates_witness :
  data_frames (data_analysis_engine Sample.loans_agent) !! "loans.csv"
  = Some Sample.frame
  /\ fst (Agent._parse_visualization_request
            (Sample.replying Sample.donut_body Sample.donut_params)
            "draw a donut chart of Age" Sample.loans_agent)
     = Ok Sample.donut_params
  /\ outcome (Agent.ask (Sample.replying Sample.donut_body Sample.donut_params)
                "draw a donut chart of Age" Sample.loans_agent)
     = Raise (ValueError "Unsupported visualization type: donut").
Proof.
  assert (Hdf : data_frames (data_analysis_engine Sample.loans_agent)
                  !! "loans.csv" = Some Sample.frame)
    by (vm_compute; reflexivity).
  split; [exact Hdf|].
  destruct (unsupported_chart_type_propagates
              (Sample.replying Sample.donut_body Sample.donut_params)
              "draw a donut chart of Age" Sample.loans_agent "loans.csv"
              ("```json" +:+ Engine.newline +:+ Sample.donut_body
               +:+ Engine.newline +:+ "```")
              [("type", JStr "donut"); ("x_column", JStr "Age");
               ("file_id", JStr "loans.csv")]
              (JStr "donut") "loans.csv" Sample.frame)
    as [Hparse [_ Hask]].
  - vm_compute; reflexivity.
  - discriminate.
  - vm_compute; reflexivity.
  - reflexivity.
  - vm_compute; reflexivity.
  - reflexivity.
  - cbn. intros s H. repeat (destruct H as [<- | H]; [discriminate|]).
    destruct H.
  - reflexivity.
  - discriminate.
  - exact Hdf.
  - split; [exact Hparse|]. now rewrite Hask.
Defined.

(** C10. When the model's answer decodes to a dictionary without the type
    field whose file_id resolves to a frame, the chart is rendered as a
    'bar' chart by default, and [ask] then raises [KeyError] on 'type'
    while building the message: no response is returned and no assistant
    turn is recorded. *)
Theorem missing_type_raises_key_error (E : Env) (query : string)
    (self : DataAnalysisAgent) (file_id text : string) (d : pydict json)
    (k : string) (df : DataFrame) :
  Agent.first_file self = Some file_id ->
  file_id <> EmptyString ->
  classify query = Visualization ->
  llm_invoke E (viz_prompt query self) = Ok text ->
  json_loads E (Agent.clean_response text) = Ok (JObj d) ->
  dict_lookup "type" d = None ->
  dict_get "file_id" (JStr file_id) d = JStr k ->
  k <> EmptyString ->
  data_frames (data_analysis_engine self) !! k = Some df ->
  sns_plot E (Barplot df (dict_get "x_column" JNull d)
                (dict_get "y_column" JNull d)
                (Viz.hue_of (dict_get "category_column" JNull d))) = Ok tt ->
  (exists viz_result : VizResult,
      Viz.generate_visualization E df (dict_get "type" (JStr "bar") d)
        (dict_get "x_column" JNull d) (dict_get "y_column" JNull d)
        (dict_get "category_column" JNull d) (dict_get "title" JNull d)
        "seaborn"
      = (Ok viz_result,
         [EvPlot (Barplot df (dict_get "x_column" JNull d)
                    (dict_get "y_column" JNull d)
                    (Viz.hue_of (dict_get "category_column" JNull d)))])
      /\ viz_type viz_result = JStr "bar")
  /\ Agent.ask E query self
     = mkRun (Raise (KeyError "type"))
             (Agent.append_turn user query self)
             [EvLlm (viz_prompt query self);
              EvPlot (Barplot df (dict_get "x_column" JNull d)
                        (dict_get "y_column" JNull d)
                        (Viz.hue_of (dict_get "category_column" JNull d)))].
Proof.
  intros Hfirst Hne Hviz Hl Hj Hty Hget Hk Hdf Hplot.
  apply classify_viz_request in Hviz.
  pose proof (parse_success E query self text (JObj d) Hl Hj) as Hv.
  assert (Hbar : dict_get "type" (JStr "bar") d = JStr "bar")
    by (unfold dict_get; now rewrite Hty).
  assert (Hrender :
            Viz.generate_visualization E df (dict_get "type" (JStr "bar") d)
              (dict_get "x_column" JNull d) (dict_get "y_column" JNull d)
              (dict_get "category_column" JNull d) (dict_get "title" JNull d)
              "seaborn"
            = (Ok {| figure :=
                       savefig_base64 E
                         (Barplot df (dict_get "x_column" JNull d)
                            (dict_get "y_column" JNull d)
                            (Viz.hue_of (dict_get "category_column" JNull d)))
                         (dict_get "title" JNull d);
                     format := "base64_png";
                     title := dict_get "title" JNull d;
                     viz_type := JStr "bar";
                     engine := "seaborn" |},
               [EvPlot (Barplot df (dict_get "x_column" JNull d)
                          (dict_get "y_column" JNull d)
                          (Viz.hue_of (dict_get "category_column" JNull d)))])).
  { rewrite Hbar.
    unfold Viz.generate_visualization, Viz._seaborn_viz, Viz.select_plot.
    cbn [String.eqb Ascii.eqb Bool.eqb is_str]. unfold bind, lift, call, ret.
    now rewrite Hplot. }
  split.
  - eexists. split; [exact Hrender | reflexivity].
  - rewrite (ask_with_files E query self file_id Hfirst Hne). cbv zeta.
    rewrite (respond_visualization E query self file_id _ Hviz Hv).
    rewrite visualize_dict, Hget, (frame_of_known k df self Hk Hdf).
    rewrite Hrender, Hty. reflexivity.
Qed.

Lemma missing_type_raises_key_error_witness :
  field "type" Sample.untyped_params = None
  /\ data_frames (data_analysis_engine Sample.loans_agent) !! "loans.csv"
     = Some Sample.frame
  /\ Agent.ask (Sample.replying Sample.untyped_body Sample.untyped_params)
       "plot Income against Age" Sample.loans_agent
     = mkRun (Raise (KeyError "type"))
             (Agent.append_turn user "plot Income against Age"
                Sample.loans_agent)
             [EvLlm (VizPrompt "plot Income against Age" ["loans.csv"]);
              EvPlot (Barplot Sample.frame (JStr "Age") (JStr "Income") None)].
Proof.
  assert (Hdf : data_frames (data_analysis_engine Sample.loans_agent)
                  !! "loans.csv" = Some Sample.frame)
    by (vm_compute; reflexivity).
  split; [reflexivity|]. split; [exact Hdf|].
  refine (proj2 (missing_type_raises_key_error
                   (Sample.replying Sample.untyped_body Sample.untyped_params)
                   "plot Income against Age" Sample.loans_agent "loans.csv"
                   ("```json" +:+ Engine.newline +:+ Sample.untyped_body
                    +:+ Engine.newline +:+ "```")
                   [("x_column", JStr "Age"); ("y_column", JStr "Income");
                    ("file_id", JStr "loans.csv")]
                   "loans.csv" Sample.frame _ _ _ _ _ _ _ _ _ _)).
  - vm_compute; reflexivity.
  - discriminate.
  - vm_compute; reflexivity.
  - reflexivity.
  - vm_compute; reflexivity.
  - reflexivity.
  - reflexivity.
  - discriminate.
  - exact Hdf.
  - reflexivity.
Defined.

(* ===================================================================== *)
(** ** What every call of [ask] keeps, and what it calls *)
(* ===================================================================== *)

Section AskRuns.
Variable E : Env.

(** The prompt of an analysis query: the context of the default file
    only. *)
Lemma respond_analysis (query : string) (self : DataAnalysisAgent)
    (file_id : string) :
  Agent.viz_request query = false ->
  Agent.respond E query self file_id
  = (match llm_invoke E
             (AnalysisPrompt
                (Engine._prepare_context [file_id] (data_analysis_engine self))
                query) with
     | Ok text => Ok (TextResponse text)
     | Raise e => Raise e
     end,
     [EvLlm (AnalysisPrompt
               (Engine._prepare_context [file_id] (data_analysis_engine self))
               query)]).
Proof.
  intros Hviz. unfold Agent.respond, Engine.analyze_data, bind, call, ret.
  rewrite Hviz.
  now destruct (llm_invoke E _).
Qed.

Lemma classify_analysis_request (query : string) :
  classify query = Analysis -> Agent.viz_request query = false.
Proof.
  unfold classify. destruct (Agent.viz_request query);
    [discriminate | reflexivity].
Qed.



End AskRuns.

(** X1. Whatever the query and the collaborators do, [ask] leaves [files]
    and the engine (context and frames) as they were, and extends the
    history by the user turn, followed by one assistant turn that carries
    the response's message exactly when a response is returned. *)
Theorem ask_keeps_session (E : Env) (query : string) (self : DataAnalysisAgent) :
  files (final (Agent.ask E query self)) = files self
  /\ data_analysis_engine (final (Agent.ask E query self))
     = data_analysis_engine self
  /\ conversation_history (final (Agent.ask E query self))
     = conversation_history self
       ++ mkTurn user query
          :: match outcome (Agent.ask E query self) with
             | Ok response => [mkTurn assistant (message_of response)]
             | Raise _ => []
             end.
Proof.
  unfold Agent.ask.
  change (Agent.first_file (Agent.append_turn user query self))
    with (Agent.first_file self).
  destruct (Agent.first_file self) as [file_id|].
  - destruct (String.eqb file_id EmptyString).
    + repeat split; reflexivity.
    + destruct (Agent.respond E query (Agent.append_turn user query self) file_id)
        as [[response|e] t]; cbn; rewrite <- ?app_assoc; repeat split; reflexivity.
  - repeat split; reflexivity.
Qed.



(** X3. An analysis query is answered with the model's text, verbatim: the
    single prompt carries the context of the first file only, and the
    text becomes both the response and the assistant turn. *)
Theorem ask_analysis_answers (E : Env) (query : string)
    (self : DataAnalysisAgent) (file_id text : string) :
  Agent.first_file self = Some file_id ->
  file_id <> EmptyString ->
  classify query = Analysis ->
  llm_invoke E
    (AnalysisPrompt
       (Engine._prepare_context [file_id] (data_analysis_engine self)) query)
  = Ok text ->
  Agent.ask E query self
  = mkRun (Ok (TextResponse text))
          (Agent.append_turn assistant text
             (Agent.append_turn user query self))
          [EvLlm (AnalysisPrompt
                    (Engine._prepare_context [file_id]
                       (data_analysis_engine self)) query)].
Proof.
  intros Hfirst Hne Hcls Hl. apply classify_analysis_request in Hcls.
  rewrite (ask_with_files E query self file_id Hfirst Hne). cbv zeta.
  rewrite (respond_analysis E query _ file_id Hcls).
  change (data_analysis_engine (Agent.append_turn user query self))
    with (data_analysis_engine self).
  now rewrite Hl.
Qed.

Lemma ask_analysis_answers_witness :
  outcome (Agent.ask Sample.chatty "what is the average income"
             Sample.loans_agent)
  = Ok (TextResponse "Sure! Here is your chart.").
Proof.
  rewrite (ask_analysis_answers Sample.chatty "what is the average income"
             Sample.loans_agent "loans.csv" "Sure! Here is your chart.").
  - reflexivity.
  - reflexivity.
  - discriminate.
  - reflexivity.
  - reflexivity.
Defined.

(** X4. For an analysis query a failure of the model is not absorbed:
    [ask] raises the model's exception and records no assistant turn. *)
Theorem ask_analysis_failure_propagates (E : Env) (query : string)
    (self : DataAnalysisAgent) (file_id : string) (e : PyExc) :
  Agent.first_file self = Some file_id ->
  file_id <> EmptyString ->
  classify query = Analysis ->
  llm_invoke E
    (AnalysisPrompt
       (Engine._prepare_context [file_id] (data_analysis_engine self)) query)
  = Raise e ->
  Agent.ask E query self
  = mkRun (Raise e) (Agent.append_turn user query self)
          [EvLlm (AnalysisPrompt
                    (Engine._prepare_context [file_id]
                       (data_analysis_engine self)) query)].
Proof.
  intros Hfirst Hne Hcls Hl. apply classify_analysis_request in Hcls.
  rewrite (ask_with_files E query self file_id Hfirst Hne). cbv zeta.
  rewrite (respond_analysis E query _ file_id Hcls).
  change (data_analysis_engine (Agent.append_turn user query self))
    with (data_analysis_engine self).
  now rewrite Hl.
Qed.

Lemma ask_analysis_failure_propagates_witness :
  outcome (Agent.ask Sample.down "what is the average income"
             Sample.loans_agent)
  = Raise Sample.unreachable.
Proof.
  rewrite (ask_analysis_failure_propagates Sample.down
             "what is the average income" Sample.loans_agent "loans.csv"
             Sample.unreachable).
  - reflexivity.
  - reflexivity.
  - discriminate.
  - reflexivity.
  - reflexivity.
Defined.

(* ===================================================================== *)
(** ** Answers of the model that decode to something unexpected *)
(* ===================================================================== *)

(** X5. When the model's answer is valid JSON but not an object (a list,
    a number, a string, a boolean or null), the extraction returns it as
    it is and [ask] raises [AttributeError] at the first [.get]: nothing
    is rendered and no assistant turn is recorded. *)
Theorem ask_non_object_answer_raises (E : Env) (query : string)
    (self : DataAnalysisAgent) (file_id text : string) (v : json) :
  Agent.first_file self = Some file_id ->
  file_id <> EmptyString ->
  classify query = Visualization ->
  llm_invoke E (viz_prompt query self) = Ok text ->
  json_loads E (Agent.clean_response text) = Ok v ->
  (forall d : pydict json, v <> JObj d) ->
  Agent.ask E query self
  = mkRun (Raise (AttributeError
                    ("'" +:+ type_name v +:+ "' object has no attribute 'get'")))
          (Agent.append_turn user query self)
          [EvLlm (viz_prompt query self)].
Proof.
  intros Hfirst Hne Hviz Hl Hj Hv.
  apply classify_viz_request in Hviz.
  rewrite (ask_with_files E query self file_id Hfirst Hne). cbv zeta.
  rewrite (respond_visualization E query self file_id v Hviz
             (parse_success E query self text v Hl Hj)).
  destruct v; try reflexivity. now elim (Hv d).
Qed.

Lemma ask_non_object_answer_raises_witness :
  outcome (Agent.ask (Sample.replying Sample.list_body Sample.list_params)
             "plot the incomes" Sample.loans_agent)
  = Raise (AttributeError "'list' object has no attribute 'get'").
Proof.
  rewrite (ask_non_object_answer_raises
             (Sample.replying Sample.list_body Sample.list_params)
             "plot the incomes" Sample.loans_agent "loans.csv"
             ("```json" +:+ Engine.newline +:+ Sample.list_body
              +:+ Engine.newline +:+ "```")
             Sample.list_params).
  - reflexivity.
  - reflexivity.
  - discriminate.
  - vm_compute; reflexivity.
  - reflexivity.
  - vm_compute; reflexivity.
  - discriminate.
Defined.

(** X6. When the answer's file_id is a non-empty list or a non-empty
    object, the membership test on [data_frames] cannot hash it and [ask]
    raises [TypeError]; nothing is rendered and no assistant turn is
    recorded. *)
Theorem ask_unhashable_file_id_raises (E : Env) (query : string)
    (self : DataAnalysisAgent) (file_id text : string) (d : pydict json)
    (viz_file_id : json) :
  Agent.first_file self = Some file_id ->
  file_id <> EmptyString ->
  classify query = Visualization ->
  llm_invoke E (viz_prompt query self) = Ok text ->
  json_loads E (Agent.clean_response text) = Ok (JObj d) ->
  dict_lookup "file_id" d = Some viz_file_id ->
  (exists (x : json) (l : list json), viz_file_id = JArr (x :: l))
  \/ (exists (kv : string * json) (o : pydict json), viz_file_id = JObj (kv :: o)) ->
  Agent.ask E query self
  = mkRun (Raise (TypeError
                    ("unhashable type: '" +:+ type_name viz_file_id +:+ "'")))
          (Agent.append_turn user query self)
          [EvLlm (viz_prompt query self)].
Proof.
  intros Hfirst Hne Hviz Hl Hj Hid Hshape.
  apply classify_viz_request in Hviz.
  rewrite (ask_with_files E query self file_id Hfirst Hne). cbv zeta.
  rewrite (respond_visualization E query self file_id _ Hviz
             (parse_success E query self text _ Hl Hj)).
  rewrite visualize_dict.
  replace (dict_get "file_id" (JStr file_id) d) with viz_file_id
    by (unfold dict_get; now rewrite Hid).
  destruct Hshape as [[x [l ->]] | [kv [o ->]]]; reflexivity.
Qed.

Lemma ask_unhashable_file_id_raises_witness :
  outcome (Agent.ask
             (Sample.replying Sample.listed_id_body Sample.listed_id_params)
             "plot the incomes" Sample.loans_agent)
  = Raise (TypeError "unhashable type: 'list'").
Proof.
  rewrite (ask_unhashable_file_id_raises
             (Sample.replying Sample.listed_id_body Sample.listed_id_params)
             "plot the incomes" Sample.loans_agent "loans.csv"
             ("```json" +:+ Engine.newline +:+ Sample.listed_id_body
              +:+ Engine.newline +:+ "```")
             [("type", JStr "bar"); ("file_id", JArr [JStr "loans.csv"])]
             (JArr [JStr "loans.csv"])).
  - reflexivity.
  - reflexivity.
  - discriminate.
  - vm_compute; reflexivity.
  - reflexivity.
  - vm_compute; reflexivity.
  - reflexivity.
  - left. now exists (JStr "loans.csv"), [].
Defined.

(* ===================================================================== *)
(** ** Rendering *)
(* ===================================================================== *)

(** A value is one of the seven chart types or differs from all. *)
Lemma classic_chart (ty : json) :
  (exists s : string, In s chart_types /\ ty = JStr s)
  \/ (forall s : string, In s chart_types -> ty <> JStr s).
Proof.
  destruct ty as [| | | |t| |]; try (right; intros s _; discriminate).
  destruct (decide (In t chart_types)) as [Hin | Hout].
  - left. now exists t.
  - right. intros s Hs Heq. injection Heq as ->. contradiction.
Qed.

(** X7. [_seaborn_viz] has a branch, hence a seaborn call, exactly for the
    seven chart types: the value must be one of the strings bar, line,
    scatter, histogram, boxplot, heatmap and pie. *)
Theorem select_plot_supported_iff (E : Env) (df : DataFrame)
    (ty x y c : json) :
  (exists plot : PlotCall, Viz.select_plot E df ty x y c = Ok plot)
  <-> exists s : string,
        In s ["bar"; "line"; "scatter"; "histogram"; "boxplot"; "heatmap"; "pie"]
        /\ ty = JStr s.
Proof.
  split.
  - intros [plot H].
    destruct (classic_chart ty) as [Hin | Hout].
    + exact Hin.
    + rewrite (select_plot_unsupported E df ty x y c) in H by exact Hout.
      discriminate.
  - intros [s [Hin ->]]. cbn in Hin.
    repeat (destruct Hin as [<- | Hin]; [eexists; reflexivity|]).
    destruct Hin.
Qed.

(** X8. The success path of a visualization query. When the answer
    decodes to a dictionary whose type is one of the seven chart types,
    its file_id resolves to a registered frame and the seaborn call
    succeeds, [ask] returns the visualization response: the encoded figure
    with format 'base64_png', the title and type of the answer and engine
    'seaborn', with the message "Here is the {type} visualization you
    requested", which is also the assistant turn. *)
Theorem ask_visualization_succeeds (E : Env) (query : string)
    (self : DataAnalysisAgent) (file_id text : string) (d : pydict json)
    (s k : string) (df : DataFrame) (plot : PlotCall) :
  Agent.first_file self = Some file_id ->
  file_id <> EmptyString ->
  classify query = Visualization ->
  llm_invoke E (viz_prompt query self) = Ok text ->
  json_loads E (Agent.clean_response text) = Ok (JObj d) ->
  dict_lookup "type" d = Some (JStr s) ->
  dict_get "file_id" (JStr file_id) d = JStr k ->
  k <> EmptyString ->
  data_frames (data_analysis_engine self) !! k = Some df ->
  Viz.select_plot E df (JStr s) (dict_get "x_column" JNull d)
    (dict_get "y_column" JNull d) (dict_get "category_column" JNull d)
  = Ok plot ->
  sns_plot E plot = Ok tt ->
  Agent.ask E query self
  = mkRun (Ok (VisualizationResponse
                 {| figure := savefig_base64 E plot (dict_get "title" JNull d);
                    format := "base64_png";
                    title := dict_get "title" JNull d;
                    viz_type := JStr s;
                    engine := "seaborn" |}
                 ("Here is the " +:+ s +:+ " visualization you requested")))
          (Agent.append_turn assistant
             ("Here is the " +:+ s +:+ " visualization you requested")
             (Agent.append_turn user query self))
          [EvLlm (viz_prompt query self); EvPlot plot].
Proof.
  intros Hfirst Hne Hviz Hl Hj Hty Hget Hk Hdf Hsel Hplot.
  apply classify_viz_request in Hviz.
  rewrite (ask_with_files E query self file_id Hfirst Hne). cbv zeta.
  rewrite (respond_visualization E query self file_id _ Hviz
             (parse_success E query self text _ Hl Hj)).
  rewrite visualize_dict, Hget, (frame_of_known k df self Hk Hdf).
  replace (dict_get "type" (JStr "bar") d) with (JStr s)
    by (unfold dict_get; now rewrite Hty).
  unfold Viz.generate_visualization, Viz._seaborn_viz.
  cbn [String.eqb Ascii.eqb Bool.eqb]. unfold bind, lift, call, ret.
  rewrite Hsel, Hplot, Hty. reflexivity.
Qed.

Lemma ask_visualization_succeeds_witness :
  outcome (Agent.ask
             (Sample.replying Sample.scatter_body Sample.scatter_params)
             "plot Income against Age" Sample.loans_agent)
  = Ok (VisualizationResponse
          {| figure := "iVBORw0KGgo=";
             format := "base64_png";
             title := JStr "Income by age";
             viz_type := JStr "scatter";
             engine := "seaborn" |}
          "Here is the scatter visualization you requested").
Proof.
  rewrite (ask_visualization_succeeds
             (Sample.replying Sample.scatter_body Sample.scatter_params)
             "plot Income against Age" Sample.loans_agent "loans.csv"
             ("```json" +:+ Engine.newline +:+ Sample.scatter_body
              +:+ Engine.newline +:+ "```")
             [("type", JStr "scatter"); ("x_column", JStr "Age");
              ("y_column", JStr "Income"); ("category_column", JNull);
              ("title", JStr "Income by age"); ("file_id", JStr "loans.csv")]
             "scatter" "loans.csv" Sample.frame
             (Scatterplot Sample.frame (JStr "Age") (JStr "Income") None)).
  - reflexivity.
  - reflexivity.
  - discriminate.
  - vm_compute; reflexivity.
  - reflexivity.
  - vm_compute; reflexivity.
  - reflexivity.
  - reflexivity.
  - discriminate.
  - vm_compute; reflexivity.
  - reflexivity.
  - reflexivity.
Defined.

(* ===================================================================== *)
(** ** More on ingestion *)
(* ===================================================================== *)

Section Ingestion.
Variable E : Env.

(** The agent's [process_file] never touches [files] or the history. *)
Lemma process_file_keeps_files (file_path file_id : string)
    (self : DataAnalysisAgent) :
  files (final (Agent.process_file E file_path file_id self)) = files self
  /\ conversation_history (final (Agent.process_file E file_path file_id self))
     = conversation_history self.
Proof.
  unfold Agent.process_file.
  now destruct (FileProcessor.process_file E file_path) as [[p|e] t].
Qed.

(** Assigning a key of a non-empty dictionary leaves its first key. *)
Lemma dict_set_first_key {V : Type} (k : string) (v : V) (d : pydict V)
    (k0 : string) (rest : list string) :
  dict_keys d = k0 :: rest ->
  exists rest', dict_keys (dict_set k v d) = k0 :: rest'.
Proof.
  destruct d as [|[k1 v1] d]; [discriminate|].
  cbn. intros H. injection H as -> _.
  destruct (String.eqb k0 k); eexists; reflexivity.
Qed.

Lemma dict_lookup_set_eq {V : Type} (k : string) (v : V) (d : pydict V) :
  dict_lookup k (dict_set k v d) = Some v.
Proof.
  induction d as [|[k' v'] d IH]; cbn.
  - now rewrite String.eqb_refl.
  - destruct (String.eqb k' k) eqn:Heq; cbn; now rewrite Heq.
Qed.

Lemma dict_lookup_set_ne {V : Type} (k k' : string) (v : V) (d : pydict V) :
  k <> k' -> dict_lookup k' (dict_set k v d) = dict_lookup k' d.
Proof.
  intros Hne. induction d as [|[k0 v0] d IH]; cbn.
  - destruct (String.eqb k k') eqn:Heq; [|reflexivity].
    apply String.eqb_eq in Heq. contradiction.
  - destruct (String.eqb k0 k) eqn:Heq; cbn.
    + apply String.eqb_eq in Heq. subst k0.
      destruct (String.eqb k k') eqn:Heq'; [|reflexivity].
      apply String.eqb_eq in Heq'. contradiction.
    + now rewrite IH.
Qed.

(** The loop over the sheets stops at the first sheet that cannot be
    read. *)
Lemma read_sheets_stops (file_path : string) (frames : string -> DataFrame)
    (s : string) (e : PyExc) (post : list string) (pre : list string) :
  forall acc : pydict Table,
    (forall n, In n pre ->
               pd_read E (ReadExcel file_path n) = Ok (frames n)) ->
    pd_read E (ReadExcel file_path s) = Raise e ->
    FileProcessor.read_sheets E file_path (pre ++ s :: post) acc
    = (Raise e,
       map (fun n => EvParse (ReadExcel file_path n)) (pre ++ [s])).
Proof.
  induction pre as [|n pre IH]; intros acc Hread Hfail.
  - cbn. unfold bind, call. now rewrite Hfail.
  - cbn [app FileProcessor.read_sheets map]. unfold bind, call.
    rewrite (Hread n) by now left.
    rewrite IH; [reflexivity | | exact Hfail].
    intros n' Hn'. apply Hread. now right.
Qed.

End Ingestion.

(** X9. A table file is read by the reader of its extension (.csv as CSV,
    .txt as tab-separated, .json as JSON), once; on success the agent
    returns the table with its metadata and registers it: the frame under
    file_id in [data_frames] and the processed data under file_id in the
    context, every other frame untouched. *)
Theorem table_file_registered (E : Env) (file_path file_id : string)
    (self : DataAnalysisAgent) (reader : ParseCall) (df : DataFrame) :
  file_id <> EmptyString ->
  In (snd (FileProcessor.splitext file_path), reader)
     [(".csv", ReadCsv file_path); (".txt", ReadTsv file_path);
      (".json", ReadJson file_path)] ->
  pd_read E reader = Ok df ->
  outcome (Agent.process_file E file_path file_id self)
  = Ok (Single (FileProcessor.table_of E df))
  /\ trace (Agent.process_file E file_path file_id self) = [EvParse reader]
  /\ data_frames (data_analysis_engine
                    (final (Agent.process_file E file_path file_id self)))
     = <[file_id := df]> (data_frames (data_analysis_engine self))
  /\ dict_lookup file_id
       (context (data_analysis_engine
                   (final (Agent.process_file E file_path file_id self))))
     = Some (Single (FileProcessor.table_of E df)).
Proof.
  intros Hid Hin Hread.
  assert (Hproc : FileProcessor.process_file E file_path
                  = (Ok (Single (FileProcessor.table_of E df)), [EvParse reader])).
  { unfold FileProcessor.process_file.
    cbn in Hin. destruct Hin as [Hin | [Hin | [Hin | []]]];
      injection Hin as Hext <-; rewrite <- Hext; cbn;
      unfold FileProcessor._process_csv, FileProcessor._process_txt,
        FileProcessor._process_json, FileProcessor.read_table, bind, call, ret;
      now rewrite Hread. }
  unfold Agent.process_file. rewrite Hproc.
  destruct (String.eqb file_id EmptyString) eqn:Heq.
  { apply String.eqb_eq in Heq. contradiction. }
  cbn. repeat split; try reflexivity. apply dict_lookup_set_eq.
Qed.

Lemma table_file_registered_witness :
  outcome (Agent.process_file Sample.down "/tmp/tmpk3v9.txt" "loans.txt"
             new_agent)
  = Ok (Single (FileProcessor.table_of Sample.down Sample.frame))
  /\ trace (Agent.process_file Sample.down "/tmp/tmpk3v9.txt" "loans.txt"
              new_agent)
     = [EvParse (ReadTsv "/tmp/tmpk3v9.txt")].
Proof.
  destruct (table_file_registered Sample.down "/tmp/tmpk3v9.txt" "loans.txt"
              new_agent (ReadTsv "/tmp/tmpk3v9.txt") Sample.frame)
    as [H1 [H2 _]].
  - discriminate.
  - right. left. vm_compute. reflexivity.
  - reflexivity.
  - split; [exact H1 | exact H2].
Defined.

(** X10. A workbook is ingested all or nothing. When one sheet cannot be
    read, the sheets before it have been read and those after it are not;
    the reader's exception is raised and the agent registers nothing. *)
Theorem excel_read_failure_registers_nothing (E : Env)
    (file_path file_id : string) (self : DataAnalysisAgent)
    (pre post : list string) (s : string) (frames : string -> DataFrame)
    (e : PyExc) :
  snd (FileProcessor.splitext file_path) = ".xlsx"
  \/ snd (FileProcessor.splitext file_path) = ".xls" ->
  pd_sheet_names E file_path = Ok (pre ++ s :: post) ->
  (forall n, In n pre -> pd_read E (ReadExcel file_path n) = Ok (frames n)) ->
  pd_read E (ReadExcel file_path s) = Raise e ->
  Agent.process_file E file_path file_id self
  = mkRun (Raise e) self
          (EvParse (OpenExcel file_path)
           :: map (fun n => EvParse (ReadExcel file_path n)) (pre ++ [s])).
Proof.
  intros Hext Hnames Hread Hfail.
  assert (Hexcel : FileProcessor._process_excel E file_path
                   = (Raise e,
                      EvParse (OpenExcel file_path)
                      :: map (fun n => EvParse (ReadExcel file_path n))
                           (pre ++ [s]))).
  { unfold FileProcessor._process_excel, bind, call. rewrite Hnames.
    now rewrite (read_sheets_stops E file_path frames s e post pre [] Hread Hfail). }
  assert (Hproc : FileProcessor.process_file E file_path
                  = (Raise e,
                     EvParse (OpenExcel file_path)
                     :: map (fun n => EvParse (ReadExcel file_path n))
                          (pre ++ [s]))).
  { unfold FileProcessor.process_file. destruct Hext as [-> | ->]; exact Hexcel. }
  unfold Agent.process_file. now rewrite Hproc.
Qed.

Lemma excel_read_failure_registers_nothing_witness :
  Agent.process_file Sample.torn "/tmp/tmpq7x2.xlsx" "wb.xlsx" new_agent
  = mkRun (Raise (OtherError "BadZipFile" "File is not a zip file")) new_agent
          [EvParse (OpenExcel "/tmp/tmpq7x2.xlsx");
           EvParse (ReadExcel "/tmp/tmpq7x2.xlsx" "Q1");
           EvParse (ReadExcel "/tmp/tmpq7x2.xlsx" "Q2")].
Proof.
  apply (excel_read_failure_registers_nothing Sample.torn "/tmp/tmpq7x2.xlsx"
           "wb.xlsx" new_agent ["Q1"] [] "Q2" (fun _ => Sample.frame)).
  - left. vm_compute. reflexivity.
  - reflexivity.
  - intros n [<- | []]. reflexivity.
  - reflexivity.
Defined.

Section Uploads.
Variable E : Env.

(** A successful read of a whole workbook, as the processor returns it. *)
Lemma process_excel_ok (file_path : string) (names : list string)
    (frames : string -> DataFrame) :
  snd (FileProcessor.splitext file_path) = ".xlsx"
  \/ snd (FileProcessor.splitext file_path) = ".xls" ->
  pd_sheet_names E file_path = Ok names ->
  (forall s, In s names -> pd_read E (ReadExcel file_path s) = Ok (frames s)) ->
  NoDup names ->
  FileProcessor.process_file E file_path
  = (Ok (Workbook (map (sheet_entry E frames) names) names),
     EvParse (OpenExcel file_path)
     :: map (fun s => EvParse (ReadExcel file_path s)) names).
Proof.
  intros Hext Hnames Hread Hnd.
  assert (Hexcel : FileProcessor._process_excel E file_path
                   = (Ok (Workbook (map (sheet_entry E frames) names) names),
                      EvParse (OpenExcel file_path)
                      :: map (fun s => EvParse (ReadExcel file_path s)) names)).
  { unfold FileProcessor._process_excel, bind, call. rewrite Hnames.
    rewrite (read_sheets_all E file_path frames names [] Hread Hnd)
      by reflexivity.
    unfold ret. cbn [app]. now rewrite app_nil_r. }
  unfold FileProcessor.process_file.
  destruct Hext as [-> | ->]; exact Hexcel.
Qed.

(** The key of a sheet is never the file's own id. *)
Lemma sheet_key_ne (file_id s : string) : file_id <> Engine.sheet_key file_id s.
Proof.
  intros H. apply (f_equal String.length) in H.
  unfold Engine.sheet_key in H. rewrite !length_app in H. cbn in H. lia.
Qed.

End Uploads.

(** X11. The default dataset is the first file ever uploaded: an upload,
    successful or not, new name or old, never changes the first key of
    [files], which is the file [ask] analyses and falls back to. *)
Theorem upload_keeps_default_file (E : Env) (tmp_path file_id : string)
    (agent : DataAnalysisAgent) (k : string) :
  Agent.first_file agent = Some k ->
  Agent.first_file (final (App.upload E tmp_path file_id agent)) = Some k.
Proof.
  intros Hfirst. unfold App.upload.
  destruct (process_file_keeps_files E tmp_path file_id agent) as [Hfiles _].
  destruct (outcome (Agent.process_file E tmp_path file_id agent)) as [p|e].
  - unfold Agent.first_file in *. cbn [final files]. rewrite Hfiles.
    destruct (dict_keys (files agent)) as [|k0 rest] eqn:Hkeys; [discriminate|].
    injection Hfirst as ->.
    destruct (dict_set_first_key file_id p (files agent) k rest Hkeys)
      as [rest' Hrest].
    now rewrite Hrest.
  - unfold Agent.first_file in *. cbn [final]. now rewrite Hfiles.
Qed.

Lemma upload_keeps_default_file_witness :
  Agent.first_file
    (final (App.upload Sample.down "/tmp/tmpq7x2.xlsx" "wb.xlsx"
              Sample.loans_agent))
  = Some "loans.csv".
Proof.
  apply (upload_keeps_default_file Sample.down "/tmp/tmpq7x2.xlsx" "wb.xlsx"
           Sample.loans_agent "loans.csv").
  reflexivity.
Defined.

(** X12. An upload is all or nothing. If processing raises, the agent is
    exactly as before. If it succeeds (with a non-empty file_id), the
    processed data is bound to file_id both in [files] and in the engine's
    context, and every other entry of [files] is as before. *)
Theorem upload_all_or_nothing (E : Env) (tmp_path file_id : string)
    (agent : DataAnalysisAgent) :
  (forall e : PyExc,
      outcome (App.upload E tmp_path file_id agent) = Raise e ->
      final (App.upload E tmp_path file_id agent) = agent)
  /\ (outcome (App.upload E tmp_path file_id agent) = Ok tt ->
      file_id <> EmptyString ->
      exists processed : Processed,
        dict_lookup file_id
          (files (final (App.upload E tmp_path file_id agent)))
        = Some processed
        /\ dict_lookup file_id
             (context (data_analysis_engine
                         (final (App.upload E tmp_path file_id agent))))
           = Some processed
        /\ forall k : string,
             k <> file_id ->
             dict_lookup k (files (final (App.upload E tmp_path file_id agent)))
             = dict_lookup k (files agent)).
Proof.
  unfold App.upload, Agent.process_file.
  destruct (FileProcessor.process_file E tmp_path) as [[p|e0] t]; cbn.
  - split; [discriminate|]. intros _ Hne.
    destruct (String.eqb file_id EmptyString) eqn:Heq.
    { apply String.eqb_eq in Heq. contradiction. }
    exists p. split; [apply dict_lookup_set_eq|]. split.
    + destruct p; cbn; apply dict_lookup_set_eq.
    + intros k Hk. apply dict_lookup_set_ne. congruence.
  - split; [|discriminate]. intros e _. now destruct agent.
Qed.

(** X13. A workbook uploaded as the first file cannot be charted through
    the fallback. Its frames are registered per sheet, so the fallback's
    file_id, the workbook's own name, is no key of [data_frames]: for
    every visualization query on which the extraction fails, [ask] answers
    that the file was not found. *)
Theorem workbook_fallback_not_found (E : Env) (tmp_path file_id : string)
    (agent : DataAnalysisAgent) (names : list string)
    (frames : string -> DataFrame) (query : string) :
  snd (FileProcessor.splitext tmp_path) = ".xlsx"
  \/ snd (FileProcessor.splitext tmp_path) = ".xls" ->
  file_id <> EmptyString ->
  pd_sheet_names E tmp_path = Ok names ->
  (forall s, In s names -> pd_read E (ReadExcel tmp_path s) = Ok (frames s)) ->
  NoDup names ->
  files agent = [] ->
  data_frames (data_analysis_engine agent) !! file_id = None ->
  classify query = Visualization ->
  extraction_fails E query (final (App.upload E tmp_path file_id agent)) ->
  outcome (Agent.ask E query (final (App.upload E tmp_path file_id agent)))
  = Ok (TextResponse
          ("File " +:+ file_id
           +:+ " not found or no data available for visualization")).
Proof.
  intros Hext Hid Hnames Hread Hnd Hfiles Hnone Hviz Hfail.
  apply classify_viz_request in Hviz.
  set (agent' := final (App.upload E tmp_path file_id agent)) in *.
  assert (Heq : String.eqb file_id EmptyString = false).
  { destruct (String.eqb file_id EmptyString) eqn:Heq; [|reflexivity].
    apply String.eqb_eq in Heq. contradiction. }
  assert (Hfirst : Agent.first_file agent' = Some file_id).
  { unfold agent', App.upload, Agent.process_file.
    rewrite (process_excel_ok E tmp_path names frames Hext Hnames Hread Hnd).
    unfold Agent.first_file. cbn. now rewrite Hfiles. }
  assert (Hmissing : data_frames (data_analysis_engine agent') !! file_id = None).
  { unfold agent', App.upload, Agent.process_file.
    rewrite (process_excel_ok E tmp_path names frames Hext Hnames Hread Hnd).
    cbn. rewrite Heq. cbn.
    destruct (add_sheets_lookup E frames file_id names
                (data_frames (data_analysis_engine agent)) Hnd) as [_ H2].
    rewrite H2; [exact Hnone|].
    intros s _. apply sheet_key_ne. }
  rewrite (ask_with_files E query agent' file_id Hfirst Hid). cbv zeta.
  rewrite (respond_visualization E query agent' file_id _ Hviz
             (parse_fallback E query agent' Hfail)).
  rewrite visualize_dict, fallback_params_fields.
  replace (dict_get "file_id" (JStr file_id) _) with (JStr file_id)
    by (unfold dict_get; cbn; now rewrite Hfirst).
  rewrite (frame_of_unknown file_id agent' Hmissing). reflexivity.
Qed.

Lemma workbook_fallback_not_found_witness :
  outcome (Agent.ask Sample.down "plot a histogram of Age"
             (final (App.upload Sample.down "/tmp/tmpq7x2.xlsx" "wb.xlsx"
                       new_agent)))
  = Ok (TextResponse
          "File wb.xlsx not found or no data available for visualization").
Proof.
  apply (workbook_fallback_not_found Sample.down "/tmp/tmpq7x2.xlsx" "wb.xlsx"
           new_agent ["Q1"; "Q2"] (fun _ => Sample.frame)
           "plot a histogram of Age").
  - left. vm_compute. reflexivity.
  - discriminate.
  - reflexivity.
  - intros s _. reflexivity.
  - apply NoDup_cons. split.
    + intros H. apply list_elem_of_In in H. destruct H as [H | []].
      discriminate H.
    + apply NoDup_cons. split; [|apply NoDup_nil; exact I].
      intros H. apply list_elem_of_In in H. destruct H.
  - reflexivity.
  - reflexivity.
  - reflexivity.
  - apply model_raises with Sample.unreachable. reflexivity.
Defined.

(* ===================================================================== *)
(** ** The context handed to the model *)
(* ===================================================================== *)


(* ===================================================================== *)
(** ** More on the classification *)
(* ===================================================================== *)

Section Classification.
Import PyStr.

Lemma lower_char_idem (c : ascii) : lower_char (lower_char c) = lower_char c.
Proof.
  destruct c as [[] [] [] [] [] [] [] []]; reflexivity.
Qed.

Lemma lower_idem (s : string) : lower (lower s) = lower s.
Proof.
  induction s as [|c s IH]; cbn; [reflexivity|].
  now rewrite lower_char_idem, IH.
Qed.

Lemma viz_request_spec (query : string) :
  Agent.viz_request query = true
  <-> exists keyword, In keyword Agent.viz_keywords
                      /\ occurs_in keyword (lower query).
Proof.
  unfold Agent.viz_request. rewrite existsb_exists.
  split; intros [k [Hin Hk]]; exists k; split; trivial; now apply contains_spec.
Qed.

End Classification.

(** X15. The classification ignores letter case, and a keyword anywhere
    decides it: whatever text is put before or after a visualization
    query, the result is still a visualization query. *)
Theorem classify_case_and_context :
  (forall query : string, classify (PyStr.lower query) = classify query)
  /\ (forall query before after : string,
         classify query = Visualization ->
         classify (before +:+ query +:+ after) = Visualization).
Proof.
  split.
  - intros query. unfold classify, Agent.viz_request.
    now rewrite lower_idem.
  - intros query before after H. apply classify_viz_request in H.
    apply viz_request_spec in H as [k [Hin [pre [post Hk]]]].
    unfold classify.
    replace (Agent.viz_request (before +:+ query +:+ after)) with true;
      [reflexivity|].
    symmetry. apply viz_request_spec. exists k. split; [exact Hin|].
    exists (PyStr.lower before +:+ pre), (post +:+ PyStr.lower after).
    rewrite !lower_app, Hk, !app_assoc'. reflexivity.
Qed.

(* ===================================================================== *)
(** ** The extension a path is dispatched on *)
(* ===================================================================== *)

Section Extensions.
Import PyStr.

Lemma take_drop (n : nat) : forall s : string, take n s +:+ drop n s = s.
Proof.
  induction n as [|n IH]; intros s; [reflexivity|].
  destruct s as [|c s]; [reflexivity|]. cbn. now rewrite IH.
Qed.

Lemma rfind_char_range (c : ascii) (s : string) :
  forall i : Z,
    0 <= i ->
    FileProcessor.rfind_char c s i = -1
    \/ i <= FileProcessor.rfind_char c s i < i + len s.
Proof.
  unfold len. induction s as [|a s IH]; intros i Hi; [now left|].
  cbn [FileProcessor.rfind_char String.length]. rewrite Nat2Z.inj_succ.
  destruct (IH (i + 1)) as [-> | Hr]; [lia | |].
  - cbn. destruct (Ascii.eqb a c); [right; lia | now left].
  - replace (0 <=? FileProcessor.rfind_char c s (i + 1)) with true
      by (symmetry; apply Z.leb_le; lia).
    right. lia.
Qed.

Lemma rfind_char_hit (c : ascii) (s : string) :
  forall i : Z,
    0 <= i ->
    FileProcessor.rfind_char c s i <> -1 ->
    exists rest : string,
      drop (Z.to_nat (FileProcessor.rfind_char c s i - i)) s = String c rest.
Proof.
  induction s as [|a s IH]; intros i Hi Hr; [now elim Hr|].
  cbn [FileProcessor.rfind_char] in *.
  destruct (rfind_char_range c s (i + 1) ltac:(lia)) as [Hm | Hin].
  - rewrite Hm in *. cbn in *.
    destruct (Ascii.eqb a c) eqn:Hac; [|now elim Hr].
    apply Ascii.eqb_eq in Hac. subst a. rewrite Z.sub_diag. now exists s.
  - replace (0 <=? FileProcessor.rfind_char c s (i + 1)) with true in *
      by (symmetry; apply Z.leb_le; lia).
    destruct (IH (i + 1) ltac:(lia) ltac:(lia)) as [rest Hrest].
    exists rest.
    replace (Z.to_nat (FileProcessor.rfind_char c s (i + 1) - i))
      with (S (Z.to_nat (FileProcessor.rfind_char c s (i + 1) - (i + 1))))
      by lia.
    exact Hrest.
Qed.

Lemma rfind_char_absent (c : ascii) (s : string) :
  forall i : Z,
    ~ occurs_in (String c EmptyString) s ->
    FileProcessor.rfind_char c s i = -1.
Proof.
  induction s as [|a s IH]; intros i Hno; [reflexivity|].
  cbn [FileProcessor.rfind_char]. rewrite IH.
  - cbn. destruct (Ascii.eqb a c) eqn:Hac; [|reflexivity].
    apply Ascii.eqb_eq in Hac. subst a.
    elim Hno. now exists EmptyString, s.
  - intros [pre [post H]]. apply Hno. exists (String a pre), post.
    cbn. now rewrite H.
Qed.

Lemma slice_to_nat (p : string) (d : Z) :
  0 <= d <= len p -> slice_to p d = take (Z.to_nat d) p.
Proof.
  intros Hd. unfold slice_to, slice, clamp, len in *. cbn [Z.ltb Z.compare].
  replace (d <? 0) with false by (symmetry; apply Z.ltb_ge; lia).
  rewrite Z.min_l, Z.min_l by lia. cbn [Z.to_nat drop].
  now rewrite Z.sub_0_r.
Qed.

Lemma slice_from_nat (p : string) (d : Z) :
  0 <= d <= len p -> slice_from p d = drop (Z.to_nat d) p.
Proof.
  intros Hd. unfold slice_from, slice, clamp, len in *.
  replace (d <? 0) with false by (symmetry; apply Z.ltb_ge; lia).
  replace (Z.of_nat (String.length p) <? 0) with false
    by (symmetry; apply Z.ltb_ge; lia).
  rewrite Z.min_id, (Z.min_l d) by lia.
  replace (Z.to_nat (Z.of_nat (String.length p) - d))
    with (String.length (drop (Z.to_nat d) p))
    by (rewrite drop_length; lia).
  apply take_all.
Qed.

End Extensions.

(** X16. The split of a path loses nothing: root and extension concatenate
    to the path, and the extension is empty or begins with a period. A
    path without any period has no extension, so [process_file] rejects
    it as unsupported before calling a reader. *)
Theorem splitext_parts (p : string) :
  fst (FileProcessor.splitext p) +:+ snd (FileProcessor.splitext p) = p
  /\ (snd (FileProcessor.splitext p) = EmptyString
      \/ exists rest : string,
           snd (FileProcessor.splitext p) = String "."%char rest)
  /\ (~ occurs_in "." p ->
      forall E : Env,
        FileProcessor.process_file E p
        = (Raise (ValueError "Unsupported file extension: "), [])).
Proof.
  split; [|split].
  - unfold FileProcessor.splitext.
    destruct (_ && _) eqn:Hc; cbn [fst snd]; [|apply app_empty_r].
    apply andb_true_iff in Hc as [Hlt _]. apply Z.ltb_lt in Hlt.
    destruct (rfind_char_range "/" p 0 ltac:(lia)) as [Hs | Hs];
      destruct (rfind_char_range PyStr.period p 0 ltac:(lia)) as [Hd | Hd];
      try lia;
      rewrite slice_to_nat, slice_from_nat by lia; apply take_drop.
  - unfold FileProcessor.splitext.
    destruct (_ && _) eqn:Hc; cbn [fst snd]; [|now left].
    apply andb_true_iff in Hc as [Hlt _]. apply Z.ltb_lt in Hlt. right.
    destruct (rfind_char_range "/" p 0 ltac:(lia)) as [Hs | Hs];
      destruct (rfind_char_range PyStr.period p 0 ltac:(lia)) as [Hd | Hd];
      try lia;
      rewrite slice_from_nat by lia;
      destruct (rfind_char_hit PyStr.period p 0 ltac:(lia) ltac:(lia))
        as [rest Hrest];
      rewrite Z.sub_0_r in Hrest; exists rest; exact Hrest.
  - intros Hno E. unfold FileProcessor.process_file, FileProcessor.splitext.
    rewrite (rfind_char_absent PyStr.period p 0 Hno).
    destruct (rfind_char_range "/" p 0 ltac:(lia)) as [Hs | Hs].
    + rewrite Hs. reflexivity.
    + replace (FileProcessor.rfind_char "/" p 0 <? -1) with false
        by (symmetry; apply Z.ltb_ge; lia).
      reflexivity.
Qed.

(* ===================================================================== *)
(** ** Removing the code fence *)
(* ===================================================================== *)

Section Fences.
Import PyStr.

Lemma lstrip_length (p : ascii -> bool) (s : string) :
  (String.length (lstrip p s) <= String.length s)%nat.
Proof.
  induction s as [|c s IH]; cbn; [lia|].
  destruct (p c); cbn; lia.
Qed.

(** A text that [lstrip] leaves alone does not begin with a stripped
    character. *)
Lemma lstrip_fixed_head (p : ascii -> bool) (c : ascii) (s : string) :
  lstrip p (String c s) = String c s -> p c = false.
Proof.
  cbn. destruct (p c); [|reflexivity]. intros H.
  pose proof (lstrip_length p s) as Hl. rewrite H in Hl. cbn in Hl. lia.
Qed.

Lemma rstrip_app_keep (p : ascii -> bool) (b : string) :
  rstrip p b <> EmptyString ->
  forall a : string, rstrip p (a +:+ b) = a +:+ rstrip p b.
Proof.
  intros Hb. induction a as [|c a IH]; [reflexivity|].
  cbn. rewrite IH.
  destruct (a +:+ rstrip p b) eqn:Hab; [|reflexivity].
  destruct a; [now elim Hb | discriminate].
Qed.

Lemma rstrip_app_drop (p : ascii -> bool) (b : string) :
  rstrip p b = EmptyString ->
  forall a : string, rstrip p (a +:+ b) = rstrip p a.
Proof.
  intros Hb. induction a as [|c a IH]; [exact Hb|].
  cbn. now rewrite IH.
Qed.

Lemma take_app (a b : string) : take (String.length a) (a +:+ b) = a.
Proof. induction a as [|c a IH]; cbn; [now destruct b | now rewrite IH]. Qed.

Lemma slice_from_app (a b : string) : slice_from (a +:+ b) (len a) = b.
Proof.
  rewrite slice_from_nat.
  - unfold len. rewrite Nat2Z.id.
    replace (String.length a) with (String.length a + 0)%nat by lia.
    apply drop_app.
  - unfold len. rewrite length_app. lia.
Qed.

Lemma slice_to_app (a b : string) :
  b <> EmptyString -> slice_to (a +:+ b) (- len b) = a.
Proof.
  intros Hb. unfold slice_to, slice, clamp, len.
  assert (Hpos : (0 < String.length b)%nat) by (destruct b; [now elim Hb | cbn; lia]).
  replace (- Z.of_nat (String.length b) <? 0) with true
    by (symmetry; apply Z.ltb_lt; lia).
  cbn [Z.ltb Z.compare]. rewrite length_app.
  rewrite Z.min_l, Z.max_r by lia. cbn [Z.to_nat drop].
  replace (Z.to_nat (- Z.of_nat (String.length b)
                     + Z.of_nat (String.length a + String.length b) - 0))
    with (String.length a) by lia.
  apply take_app.
Qed.

Lemma endswith_app (a b : string) : endswith (a +:+ b) b = true.
Proof.
  unfold endswith. rewrite length_app. apply andb_true_iff. split.
  - apply Nat.leb_le. lia.
  - replace (String.length a + String.length b - String.length b)%nat
      with (String.length a + 0)%nat by lia.
    rewrite drop_app. apply String.eqb_refl.
Qed.

(** Stripping a text that has no blank at either end, wrapped in
    newlines, gives it back. *)
Lemma strip_between_newlines (body : string) :
  lstrip is_space body = body ->
  rstrip is_space body = body ->
  strip (Engine.newline +:+ body +:+ Engine.newline) = body.
Proof.
  intros Hl Hr. unfold strip, strip_chars.
  change (lstrip is_space (Engine.newline +:+ body +:+ Engine.newline))
    with (lstrip is_space (body +:+ Engine.newline)).
  destruct body as [|c b]; [reflexivity|].
  pose proof (lstrip_fixed_head is_space c b Hl) as Hc.
  change (lstrip is_space (String c b +:+ Engine.newline))
    with (if is_space c
          then lstrip is_space (b +:+ Engine.newline)
          else String c (b +:+ Engine.newline)).
  rewrite Hc.
  change (String c (b +:+ Engine.newline))
    with (String c b +:+ Engine.newline).
  rewrite rstrip_app_drop by reflexivity. exact Hr.
Qed.

(** The text left once the opening fence is gone. *)
Lemma clean_after_open (body : string) :
  lstrip is_space body = body ->
  rstrip is_space body = body ->
  let rest := Engine.newline +:+ body +:+ Engine.newline +:+ "```" in
  strip (if endswith rest "```" then slice_to rest (-3) else rest) = body.
Proof.
  intros Hl Hr rest.
  assert (Hrest : rest = (Engine.newline +:+ body +:+ Engine.newline) +:+ "```")
    by (unfold rest; now rewrite !app_assoc').
  rewrite Hrest, endswith_app.
  change (-3) with (- len "```"). rewrite slice_to_app by discriminate.
  now apply strip_between_newlines.
Qed.

End Fences.

(** X17. Fence removal. For an answer body without blanks at either end,
    the model's text "```json", newline, body, newline, "```" is cleaned
    to the body before decoding, and so is the same text with a bare
    "```" opening fence; a body that neither starts nor ends with "```"
    is left as it is. *)
Theorem clean_response_unfences (body : string) :
  PyStr.lstrip PyStr.is_space body = body ->
  PyStr.rstrip PyStr.is_space body = body ->
  Agent.clean_response
    ("```json" +:+ Engine.newline +:+ body +:+ Engine.newline +:+ "```") = body
  /\ Agent.clean_response
       ("```" +:+ Engine.newline +:+ body +:+ Engine.newline +:+ "```") = body
  /\ (PyStr.startswith body "```" = false ->
      PyStr.endswith body "```" = false ->
      Agent.clean_response body = body).
Proof.
  intros Hl Hr.
  assert (Hstrip : forall fence : string,
             fence <> EmptyString ->
             PyStr.lstrip PyStr.is_space fence = fence ->
             PyStr.strip (fence +:+ Engine.newline +:+ body
                          +:+ Engine.newline +:+ "```")
             = fence +:+ Engine.newline +:+ body +:+ Engine.newline +:+ "```").
  { intros fence Hne Hf. unfold PyStr.strip, PyStr.strip_chars.
    replace (PyStr.lstrip PyStr.is_space
               (fence +:+ Engine.newline +:+ body +:+ Engine.newline +:+ "```"))
      with (fence +:+ Engine.newline +:+ body +:+ Engine.newline +:+ "```").
    - rewrite <- !app_assoc'.
      now rewrite rstrip_app_keep by discriminate.
    - destruct fence as [|c f]; [now elim Hne|].
      pose proof (lstrip_fixed_head PyStr.is_space c f Hf) as Hc.
      cbn. now rewrite Hc. }
  split; [|split].
  - unfold Agent.clean_response. rewrite (Hstrip "```json") by (discriminate || reflexivity).
    cbv zeta.
    change (PyStr.startswith
              ("```json" +:+ Engine.newline +:+ body +:+ Engine.newline +:+ "```")
              "```json") with true. cbv iota.
    change 7 with (PyStr.len "```json"). rewrite slice_from_app.
    change (PyStr.startswith
              (Engine.newline +:+ body +:+ Engine.newline +:+ "```") "```")
      with false. cbv iota.
    now apply clean_after_open.
  - unfold Agent.clean_response. rewrite (Hstrip "```") by (discriminate || reflexivity).
    cbv zeta.
    change (PyStr.startswith
              ("```" +:+ Engine.newline +:+ body +:+ Engine.newline +:+ "```")
              "```json") with false. cbv iota.
    change (PyStr.startswith
              ("```" +:+ Engine.newline +:+ body +:+ Engine.newline +:+ "```")
              "```") with true. cbv iota.
    change 3 with (PyStr.len "```"). rewrite slice_from_app.
    now apply clean_after_open.
  - intros Hs He. unfold Agent.clean_response, PyStr.strip, PyStr.strip_chars.
    rewrite Hl, Hr. cbv zeta.
    assert (Hj : PyStr.startswith body "```json" = false).
    { destruct (PyStr.startswith body "```json") eqn:Hj; [|reflexivity].
      apply startswith_spec in Hj as [post ->]. discriminate Hs. }
    rewrite Hj, Hs, He. now rewrite Hl, Hr.
Qed.

Lemma clean_response_unfences_witness :
  Agent.clean_response
    ("```json" +:+ Engine.newline +:+ Sample.donut_body +:+ Engine.newline
     +:+ "```") = Sample.donut_body.
Proof.
  destruct (clean_response_unfences Sample.donut_body) as [H _].
  - vm_compute. reflexivity.
  - vm_compute. reflexivity.
  - exact H.
Defined.

(* ===================================================================== *)
(** ** The fallback reaches the renderer *)
(* ===================================================================== *)

(** X18. With the model down or its answer undecodable, a visualization
    query whose lowercased text does not contain "histogram", asked on a
    first file that is a registered table, reaches [barplot] with the
    extracted x column, no y column and no hue. If that call succeeds,
    [ask] returns the visualization response of type 'bar' with the
    message "Here is the bar visualization you requested" and records it
    as the assistant turn: the fallback always has a type, so building the
    message cannot fail. *)
Theorem ask_fallback_renders_bar (E : Env) (query : string)
    (self : DataAnalysisAgent) (file_id : string) (df : DataFrame) :
  Agent.first_file self = Some file_id ->
  file_id <> EmptyString ->
  classify query = Visualization ->
  ~ occurs_in "histogram" (PyStr.lower query) ->
  extraction_fails E query self ->
  data_frames (data_analysis_engine self) !! file_id = Some df ->
  sns_plot E (Barplot df
                (dict_get "x_column" JNull (Agent.fallback_params query self))
                JNull None) = Ok tt ->
  Agent.ask E query self
  = mkRun (Ok (VisualizationResponse
                 {| figure :=
                      savefig_base64 E
                        (Barplot df
                           (dict_get "x_column" JNull
                              (Agent.fallback_params query self))
                           JNull None)
                        (dict_get "title" JNull
                           (Agent.fallback_params query self));
                    format := "base64_png";
                    title := dict_get "title" JNull
                               (Agent.fallback_params query self);
                    viz_type := JStr "bar";
                    engine := "seaborn" |}
                 "Here is the bar visualization you requested"))
          (Agent.append_turn assistant
             "Here is the bar visualization you requested"
             (Agent.append_turn user query self))
          [EvLlm (viz_prompt query self);
           EvPlot (Barplot df
                     (dict_get "x_column" JNull
                        (Agent.fallback_params query self))
                     JNull None)].
Proof.
  intros Hfirst Hne Hviz Hbar Hfail Hdf Hplot.
  apply classify_viz_request in Hviz. apply contains_false in Hbar.
  rewrite (ask_with_files E query self file_id Hfirst Hne). cbv zeta.
  rewrite (respond_visualization E query self file_id _ Hviz
             (parse_fallback E query self Hfail)).
  rewrite visualize_dict.
  set (params := Agent.fallback_params query self) in *.
  assert (Hfields : params
            = [("type", JStr "bar");
               ("x_column", dict_get "x_column" JNull params);
               ("y_column", JNull); ("category_column", JNull);
               ("title", dict_get "title" JNull params);
               ("file_id", JStr file_id)]).
  { unfold params. rewrite fallback_params_fields, Hfirst, Hbar. reflexivity. }
  assert (Hid : dict_get "file_id" (JStr file_id) params = JStr file_id)
    by (rewrite Hfields; reflexivity).
  assert (Hty : dict_lookup "type" params = Some (JStr "bar"))
    by (rewrite Hfields; reflexivity).
  assert (Hy : dict_get "y_column" JNull params = JNull)
    by (rewrite Hfields; reflexivity).
  assert (Hc : dict_get "category_column" JNull params = JNull)
    by (rewrite Hfields; reflexivity).
  rewrite Hid, (frame_of_known file_id df self Hne Hdf), Hy, Hc, Hty.
  replace (dict_get "type" (JStr "bar") params) with (JStr "bar")
    by (unfold dict_get; now rewrite Hty).
  unfold Viz.generate_visualization, Viz._seaborn_viz, Viz.select_plot,
    Viz.hue_of.
  cbn [String.eqb Ascii.eqb Bool.eqb is_str truthy].
  unfold bind, lift, call, ret.
  now rewrite Hplot.
Qed.

Lemma ask_fallback_renders_bar_witness :
  outcome (Agent.ask Sample.down "plot the incomes with x-axis Age"
             Sample.loans_agent)
  = Ok (VisualizationResponse
          {| figure := "iVBORw0KGgo=";
             format := "base64_png";
             title := JNull;
             viz_type := JStr "bar";
             engine := "seaborn" |}
          "Here is the bar visualization you requested")
  /\ trace (Agent.ask Sample.down "plot the incomes with x-axis Age"
              Sample.loans_agent)
     = [EvLlm (VizPrompt "plot the incomes with x-axis Age" ["loans.csv"]);
        EvPlot (Barplot Sample.frame (JStr "Age") JNull None)].
Proof.
  rewrite (ask_fallback_renders_bar Sample.down
             "plot the incomes with x-axis Age" Sample.loans_agent
             "loans.csv" Sample.frame).
  - split; vm_compute; reflexivity.
  - reflexivity.
  - discriminate.
  - reflexivity.
  - apply contains_false. vm_compute. reflexivity.
  - apply model_raises with Sample.unreachable. reflexivity.
  - vm_compute. reflexivity.
  - reflexivity.
Defined.

(* ===================================================================== *)
(** ** Names and keys *)
(* ===================================================================== *)

Section Names.
Import PyStr.

(** The last occurrence of a character that does not occur after it. *)
Lemma rfind_char_last (c : ascii) (name : string) (dir : string) :
  forall i : Z,
    0 <= i ->
    ~ occurs_in (String c EmptyString) name ->
    FileProcessor.rfind_char c (dir +:+ String c name) i
    = i + Z.of_nat (String.length dir).
Proof.
  induction dir as [|a dir IH]; intros i Hi Hno.
  - cbn [String.append FileProcessor.rfind_char String.length].
    rewrite (rfind_char_absent c name (i + 1) Hno). cbn.
    rewrite Ascii.eqb_refl. lia.
  - cbn [String.append FileProcessor.rfind_char String.length].
    rewrite IH by (trivial; lia).
    replace (0 <=? i + 1 + Z.of_nat (String.length dir)) with true
      by (symmetry; apply Z.leb_le; lia).
    rewrite Nat2Z.inj_succ. lia.
Qed.

Lemma basename_of_joined (dir name : string) :
  ~ occurs_in "/" name ->
  FileProcessor.basename (dir +:+ "/" +:+ name) = name.
Proof.
  intros Hno. unfold FileProcessor.basename.
  change (dir +:+ "/" +:+ name) with (dir +:+ String "/" name).
  rewrite (rfind_char_last "/" name dir 0) by (trivial; lia).
  rewrite slice_from_nat.
  - replace (Z.to_nat (0 + Z.of_nat (String.length dir) + 1))
      with (String.length (dir +:+ "/") + 0)%nat
      by (rewrite length_app; cbn; lia).
    change (dir +:+ String "/" name) with (dir +:+ "/" +:+ name).
    rewrite <- app_assoc'. apply drop_app.
  - unfold len. rewrite length_app. cbn [String.length]. lia.
Qed.

End Names.

(** X19. Without a file_id the agent registers a file under the last
    component of its path: for the path dir/name, where name is not empty
    and has no slash, processing with an empty file_id is processing with
    file_id name. *)
Theorem process_file_default_id (E : Env) (dir name : string)
    (self : DataAnalysisAgent) :
  name <> EmptyString ->
  ~ occurs_in "/" name ->
  Agent.process_file E (dir +:+ "/" +:+ name) EmptyString self
  = Agent.process_file E (dir +:+ "/" +:+ name) name self.
Proof.
  intros Hne Hno. unfold Agent.process_file.
  rewrite basename_of_joined by exact Hno.
  replace (String.eqb name EmptyString) with false; [reflexivity|].
  symmetry. now apply String.eqb_neq.
Qed.

Lemma process_file_default_id_witness :
  data_frames
    (data_analysis_engine
       (final (Agent.process_file Sample.down "/data/loans.csv" EmptyString
                 new_agent)))
    !! "loans.csv" = Some Sample.frame.
Proof.
  change "/data/loans.csv" with ("/data" +:+ "/" +:+ "loans.csv").
  rewrite (process_file_default_id Sample.down "/data" "loans.csv" new_agent).
  - vm_compute. reflexivity.
  - discriminate.
  - intros [pre [post H]]. apply (f_equal (PyStr.contains "/")) in H.
    rewrite (proj2 (contains_spec "/" (pre +:+ "/" +:+ post))) in H
      by (now exists pre, post).
    vm_compute in H. discriminate H.
Defined.
